(** * slideconvert: a shallow embedding of [app.py]

    The conversion service takes a list of image URLs and a target format
    and builds a PDF document, a PowerPoint deck or a ZIP archive out of
    the images it manages to download; a background thread reclaims the
    temporary files and buffers the conversions leave behind.

    The embedding follows [app.py] function by function.  Python's
    exceptions are modelled by an exception-and-state monad: a computation
    takes the object it is building (canvas, presentation, archive) and
    the process state, and returns either a value or a raised exception,
    together with the object and the state reached (side effects performed
    before a [raise] are kept, as in Python).  What the network answers is
    not decided by the program: it is a parameter [net] of the model. *)

From Stdlib Require Import ZArith List String Ascii Bool Lia Arith.
From Stdlib Require Import Decimal DecimalString DecimalNat.
Import ListNotations.
Local Open Scope string_scope.
Local Open Scope list_scope.
Local Open Scope Z_scope.

(** ** Strings: [str.lower], [str(n)], [str.zfill] *)

Module PyStr.

(** [str.lower] on one character.  Only the ASCII letters are mapped; the
    three format names are ASCII, and no other character lowercases to
    one of their letters in a way that could produce exactly one of
    them, so membership tests on a lowercased string agree with
    Python's. *)
Definition lower_ascii (c : ascii) : ascii :=
  let n := nat_of_ascii c in
  if andb (Nat.leb 65 n) (Nat.leb n 90) then ascii_of_nat (n + 32) else c.

Fixpoint lower (s : string) : string :=
  match s with
  | EmptyString => EmptyString
  | String c r => String (lower_ascii c) (lower r)
  end.

(** [str(n)] for a non-negative integer: its decimal digits. *)
Definition str (n : nat) : string :=
  NilEmpty.string_of_uint (Nat.to_uint n).

Fixpoint zeros (k : nat) : string :=
  match k with
  | O => EmptyString
  | S k' => String "0" (zeros k')
  end.

(** [s.zfill(w)] for a string without sign: zeros on the left up to
    width [w]; a longer string is returned unchanged. *)
Definition zfill (w : nat) (s : string) : string :=
  (zeros (w - String.length s) ++ s)%string.

Definition in_list (s : string) (l : list string) : bool :=
  existsb (String.eqb s) l.

End PyStr.

(** ** Images, as Pillow presents them *)

Definition URL := string.

(** The modes Pillow gives a decoded image. *)
Inductive mode : Type :=
| M1 | ML | MP | MRGB | MRGBA | MCMYK | MYCbCr | MLAB | MHSV | MI | MF
| MLA | MPA | MRGBX | MRGBa | MLa.

Definition mode_eqb (a b : mode) : bool :=
  match a, b with
  | M1, M1 | ML, ML | MP, MP | MRGB, MRGB | MRGBA, MRGBA | MCMYK, MCMYK
  | MYCbCr, MYCbCr | MLAB, MLAB | MHSV, MHSV | MI, MI | MF, MF
  | MLA, MLA | MPA, MPA | MRGBX, MRGBX | MRGBa, MRGBa | MLa, MLa => true
  | _, _ => false
  end.


(** The modes Pillow's JPEG encoder accepts ([RAWMODE] of its JPEG plugin);
    [image.save(..., 'JPEG')] raises [OSError] on any other mode.  The
    table belongs to the library, not to [app.py]. *)
Definition jpeg_writable (m : mode) : bool :=
  match m with
  | M1 | ML | MRGB | MRGBX | MCMYK | MYCbCr => true
  | _ => false
  end.

(** What an image shows.  [Decoded k] is the picture decoded from the
    [k]-th distinct response body; [PasteOnWhite src mask] is
    [Image.new('RGB', size, (255, 255, 255))] after
    [paste(src, mask=...)]: with [mask = true] the source's alpha band
    weighs source against the white background (alpha compositing), with
    [mask = false] (Python's [mask=None]) the source overwrites the whole
    background and its alpha band is dropped. *)
Inductive pixels : Type :=
| Decoded (k : nat)
| PasteOnWhite (src : pixels) (mask : bool).

(** A decoded image.  [Image.open] is lazy: it reads the header only, so
    an image can be handed out whose pixel data cannot be produced later.
    [im_encodes] tells whether Pillow manages to load the pixel data and
    to encode them as JPEG, the mode apart: it is [false] for a body
    truncated behind a valid header, for a side beyond what the encoder
    takes, and the like. *)
Record image : Type := mkImage {
  im_mode : mode;
  im_width : Z;
  im_height : Z;
  im_pixels : pixels;
  im_encodes : bool
}.

Definition size (im : image) : Z * Z := (im_width im, im_height im).

(** Whether [image.save(..., 'JPEG')] succeeds on the image. *)
Definition can_save (im : image) : bool :=
  jpeg_writable (im_mode im) && im_encodes im.

(** ** Process state and exceptions *)

Inductive exn : Type :=
| FetchError (u : URL)          (* requests / Image.open failed *)
| EncodeError (m : mode)        (* OSError: cannot write mode as JPEG *)
| IndexError                    (* list index out of range *)
| AttributeError (what : string)
| NameError (what : string)
| TypeError
| OSError.

Inductive resource_type : Type := RFile | RBuffer | ROther.

(** One entry of [cleanup_queue].  Temporary files are named by a counter,
    buffers by the identity of the [BytesIO] object. *)
Record item : Type := mkItem {
  i_type : resource_type;
  i_path : option nat;
  i_buffer : option nat;
  i_created : Z
}.

Record state : Type := mkState {
  fetched : list URL;        (* every call of [download_image], in order *)
  cleanup_queue : list item; (* the global ledger *)
  now : Z;                   (* what [time.time()] returns, in clock ticks *)
  next_tmp : nat;            (* names of temporary files handed out *)
  disk : list (nat * option image);
                             (* temporary files present; [None]: still empty *)
  next_buf : nat;            (* identities of [BytesIO] objects handed out *)
  closed : list nat          (* buffers that were closed *)
}.

Definition set_fetched (f : list URL) (s : state) : state :=
  mkState f (cleanup_queue s) (now s) (next_tmp s) (disk s) (next_buf s) (closed s).
Definition set_cleanup_queue (q : list item) (s : state) : state :=
  mkState (fetched s) q (now s) (next_tmp s) (disk s) (next_buf s) (closed s).
Definition set_now (t : Z) (s : state) : state :=
  mkState (fetched s) (cleanup_queue s) t (next_tmp s) (disk s) (next_buf s) (closed s).
Definition set_next_tmp (n : nat) (s : state) : state :=
  mkState (fetched s) (cleanup_queue s) (now s) n (disk s) (next_buf s) (closed s).
Definition set_disk (d : list (nat * option image)) (s : state) : state :=
  mkState (fetched s) (cleanup_queue s) (now s) (next_tmp s) d (next_buf s) (closed s).
Definition set_next_buf (n : nat) (s : state) : state :=
  mkState (fetched s) (cleanup_queue s) (now s) (next_tmp s) (disk s) n (closed s).
Definition set_closed (c : list nat) (s : state) : state :=
  mkState (fetched s) (cleanup_queue s) (now s) (next_tmp s) (disk s) (next_buf s) c.

Inductive result (A : Type) : Type :=
| Ok (a : A)
| Raise (e : exn).
Arguments Ok {A} a.
Arguments Raise {A} e.

(** A computation working on a local mutable object of type [O] (the
    canvas, the presentation or the archive under construction) and on the
    process state. *)
Definition M (O A : Type) : Type := O -> state -> result A * (O * state).

Definition ret {O A} (a : A) : M O A := fun o s => (Ok a, (o, s)).

Definition bind {O A B} (c : M O A) (k : A -> M O B) : M O B :=
  fun o s =>
    match c o s with
    | (Ok a, (o', s')) => k a o' s'
    | (Raise e, os') => (Raise e, os')
    end.

Definition raise {O A} (e : exn) : M O A := fun o s => (Raise e, (o, s)).

(** [try: c  except Exception as e: h e] *)
Definition try_except {O A} (c : M O A) (h : exn -> M O A) : M O A :=
  fun o s =>
    match c o s with
    | (Ok a, os') => (Ok a, os')
    | (Raise e, (o', s')) => h e o' s'
    end.

Definition get_obj {O} : M O O := fun o s => (Ok o, (o, s)).
Definition modify_obj {O} (f : O -> O) : M O unit := fun o s => (Ok tt, (f o, s)).
Definition get_state {O} : M O state := fun o s => (Ok s, (o, s)).
Definition modify_state {O} (f : state -> state) : M O unit :=
  fun o s => (Ok tt, (o, f s)).

(** Runs [c] on a fresh local object [o]; the caller's own object is
    untouched, and the object built is returned with the value. *)
Definition scoped {O O' A} (o : O) (c : M O A) : M O' (A * O) :=
  fun o' s =>
    match c o s with
    | (Ok a, (o1, s1)) => (Ok (a, o1), (o', s1))
    | (Raise e, (_, s1)) => (Raise e, (o', s1))
    end.

Declare Scope py_scope.
Delimit Scope py_scope with py.
Notation "x <- c ;; k" := (bind c (fun x => k))
  (at level 61, c at next level, right associativity) : py_scope.
Notation "c ;;; k" := (bind c (fun _ => k))
  (at level 61, right associativity) : py_scope.
Local Open Scope py_scope.

(** ** The PDF canvas of reportlab, as far as [app.py] drives it *)

Inductive canvas_call : Type :=
| CallDrawImage (path : nat)
| CallShowPage.

Record page : Type := mkPage {
  pg_size : Z * Z;
  pg_images : list (nat * Z * Z * Z * Z) (* path, x, y, width, height *)
}.

Record canvas : Type := mkCanvas {
  pagesize : Z * Z;
  code : list (nat * Z * Z * Z * Z);  (* what is drawn on the open page *)
  pages : list page;                   (* the pages already closed *)
  calls : list canvas_call             (* every call made on the canvas *)
}.

Definition Canvas (sz : Z * Z) : canvas := mkCanvas sz [] [] [].

Definition drawImage (path : nat) (x y w h : Z) (c : canvas) : canvas :=
  mkCanvas (pagesize c) (code c ++ [(path, x, y, w, h)]) (pages c)
           (calls c ++ [CallDrawImage path]).

Definition close_page (c : canvas) : canvas :=
  mkCanvas (pagesize c) [] (pages c ++ [mkPage (pagesize c) (code c)]) (calls c).

Definition showPage (c : canvas) : canvas :=
  let c' := close_page c in
  mkCanvas (pagesize c') (code c') (pages c') (calls c ++ [CallShowPage]).

(** [Canvas.save] closes the open page when something was drawn on it and
    writes the document. *)
Definition save (c : canvas) : canvas :=
  match code c with
  | [] => c
  | _ :: _ => close_page c
  end.

(** ** The presentation of python-pptx *)

Record slide : Type := mkSlide {
  sl_layout : nat;
  sl_pictures : list (nat * Z * Z * Z * Z) (* path, left, top, width, height *)
}.

Record presentation : Type := mkPresentation {
  slide_layouts : list nat;
  slides : list slide
}.

(** ** The ZIP archive *)

Record zip_entry : Type := mkEntry {
  ze_name : string;
  ze_quality : Z;
  ze_image : image
}.

Definition zipfile := list zip_entry.

(** What a renderer hands back: its [BytesIO], by identity and content. *)
Inductive content : Type :=
| PdfContent (c : canvas)
| PptContent (p : presentation)
| ZipContent (z : zipfile).

Record buffer : Type := mkBuffer {
  buf_id : nat;
  buf_content : content
}.

(** ** Requests and responses *)

(** A JSON scalar, for the [format] field of the request body. *)
Inductive jvalue : Type :=
| JNull
| JBool (b : bool)
| JNum (z : Z)
| JStr (s : string).

(** The request body, a JSON object: the three keys [convert] reads, each
    present or not, and whether the object has any other key.  [images] is
    taken to be a list of URL strings and [title] a string. *)
Record body : Type := mkBody {
  b_images : option (list URL);
  b_title : option string;
  b_format : option jvalue;
  b_other_keys : bool
}.

(** [not data] for a dictionary: it has no key at all. *)
Definition dict_is_empty (d : body) : bool :=
  match b_images d, b_title d, b_format d, b_other_keys d with
  | None, None, None, false => true
  | _, _, _, _ => false
  end.

Inductive error_text : Type :=
| Text (s : string)
| ConversionFailed (e : exn).   (* f'Conversion failed: {str(e)}' *)

Inductive response : Type :=
| Jsonify (error : error_text) (status : Z)
| SendFile (file : buffer) (mimetype : string) (download_name : string).

(** The HTTP status of a response; [send_file] answers 200. *)
Definition status_of (r : response) : Z :=
  match r with
  | Jsonify _ status => status
  | SendFile _ _ _ => 200
  end.

(** ** The program *)

Section App.

(** What the network answers: [net k u] is the decoded image the [k]-th
    call of [download_image] (counting from 0) gets for URL [u], or
    [None] when the request, the status check or the decoding fails. *)
Variable net : nat -> URL -> option image.

(** python-pptx: the layouts of the default template, and what line 147,
    [prs.slide_layouts._sldLayouts.clear()], leaves of them ([None]: the
    statement raises). *)
Variable default_layouts : list nat.
Variable sldLayouts_clear : list nat -> option (list nat).

(** [schedule_cleanup(resource_type, path, buffer)] *)
Definition schedule_cleanup {O} (t : resource_type) (path buf : option nat)
  : M O unit :=
  modify_state (fun s =>
    set_cleanup_queue (cleanup_queue s ++ [mkItem t path buf (now s)]) s).

(** [download_image(url)]: the exception is logged and raised again. *)
Definition download_image {O} (url : URL) : M O image :=
  fun o s =>
    let s' := set_fetched (fetched s ++ [url]) s in
    match net (List.length (fetched s)) url with
    | Some im => (Ok im, (o, s'))
    | None => (Raise (FetchError url), (o, s'))
    end.

(** [tempfile.NamedTemporaryFile(suffix='.jpg', delete=False)]: a new,
    empty file that stays on disk. *)
Definition NamedTemporaryFile {O} : M O nat :=
  fun o s =>
    (Ok (next_tmp s),
     (o, set_next_tmp (S (next_tmp s))
           (set_disk (disk s ++ [(next_tmp s, None)]) s))).

Definition write_file (p : nat) (im : image) (d : list (nat * option image))
  : list (nat * option image) :=
  map (fun e => if Nat.eqb (fst e) p then (p, Some im) else e) d.

(** [image.save(path, 'JPEG')]: raises on a mode the encoder refuses and
    on pixel data that cannot be loaded or encoded. *)
Definition save_jpeg {O} (im : image) (p : nat) : M O unit :=
  if can_save im
  then modify_state (fun s => set_disk (write_file p im (disk s)) s)
  else raise (if jpeg_writable (im_mode im)
              then OSError else EncodeError (im_mode im)).

(** *** [create_pdf_from_images] *)

(** One turn of the loop of lines 109-131, for the image at index [i] of
    [len] images. *)
Definition pdf_step (width height : Z) (len i : nat) (image_url : URL)
  : M canvas unit :=
  try_except
    (im <- download_image image_url ;;
     temp_path <- NamedTemporaryFile ;;
     save_jpeg im temp_path ;;;
     modify_obj (drawImage temp_path 0 0 width height) ;;;
     schedule_cleanup RFile (Some temp_path) None ;;;
     if Nat.ltb i (len - 1) then modify_obj showPage else ret tt)
    (fun _ => ret tt).

Fixpoint pdf_loop (width height : Z) (len i : nat) (images : list URL)
  : M canvas unit :=
  match images with
  | [] => ret tt
  | image_url :: rest =>
      pdf_step width height len i image_url ;;;
      pdf_loop width height len (S i) rest
  end.

(** [io.BytesIO()] *)
Definition BytesIO {O} : M O nat :=
  fun o s => (Ok (next_buf s), (o, set_next_buf (S (next_buf s)) s)).

Definition create_pdf_from_images (images : list URL) (title : string)
  : M unit buffer :=
  pdf_buffer <- BytesIO ;;
  try_except
    (first_image <- match images with
                    | [] => raise IndexError
                    | u :: _ => download_image u
                    end ;;
     let (width, height) := size first_image in
     r <- scoped (Canvas (width, height))
                 (pdf_loop width height (List.length images) 0 images) ;;
     ret (mkBuffer pdf_buffer (PdfContent (save (snd r)))))
    (fun e => raise e).

(** *** [create_ppt_from_images] *)

(** [Presentation()]: the default template, no slide yet. *)
Definition Presentation : presentation := mkPresentation default_layouts [].

(** [Inches(10)] and [Inches(7.5)], in English Metric Units. *)
Definition Inches_10 : Z := 9144000.
Definition Inches_7_5 : Z := 6858000.

(** [prs.slides.add_slide(layout)] *)
Definition add_slide (layout : nat) (prs : presentation) : presentation :=
  mkPresentation (slide_layouts prs) (slides prs ++ [mkSlide layout []]).

(** [slide.shapes.add_picture(...)], [slide] being the slide added last. *)
Definition add_picture (path : nat) (left top w h : Z) (prs : presentation)
  : presentation :=
  match List.rev (slides prs) with
  | [] => prs
  | sl :: before =>
      mkPresentation (slide_layouts prs)
        (List.rev before ++
         [mkSlide (sl_layout sl) (sl_pictures sl ++ [(path, left, top, w, h)])])
  end.

(** One turn of the loop of lines 149-188.  The placeholder shapes the
    layout brings, and their removal (lines 165-167), are not modelled. *)
Definition ppt_step (i : nat) (image_url : URL) : M presentation unit :=
  try_except
    (im <- download_image image_url ;;
     prs <- get_obj ;;
     let slide_layout := match slide_layouts prs with
                         | l0 :: _ => Some l0
                         | [] => None
                         end in
     match slide_layout with
     | None =>
         match nth_error (slide_layouts prs) 6 with
         | Some blank => modify_obj (add_slide blank)
         | None => raise IndexError
         end
     | Some l => modify_obj (add_slide l)
     end ;;;
     temp_path <- NamedTemporaryFile ;;
     save_jpeg im temp_path ;;;
     modify_obj (add_picture temp_path 0 0 Inches_10 Inches_7_5) ;;;
     schedule_cleanup RFile (Some temp_path) None)
    (fun _ => ret tt).

Fixpoint ppt_loop (i : nat) (images : list URL) : M presentation unit :=
  match images with
  | [] => ret tt
  | image_url :: rest => ppt_step i image_url ;;; ppt_loop (S i) rest
  end.

Definition create_ppt_from_images (images : list URL) (title : string)
  : M unit buffer :=
  try_except
    (r <- scoped Presentation
            (match sldLayouts_clear default_layouts with
             | Some ls => modify_obj (fun prs => mkPresentation ls (slides prs))
             | None => raise (AttributeError "_sldLayouts")
             end ;;;
             ppt_loop 0 images) ;;
     ppt_buffer <- BytesIO ;;
     ret (mkBuffer ppt_buffer (PptContent (snd r))))
    (fun e => raise e).

(** *** [create_zip_from_images] *)

(** Lines 216-220: an RGBA or LA image is replaced by a white RGB image
    it is pasted on; the alpha band is the paste mask for RGBA only. *)
Definition to_rgb (im : image) : image :=
  if orb (mode_eqb (im_mode im) MRGBA) (mode_eqb (im_mode im) MLA)
  then mkImage MRGB (im_width im) (im_height im)
               (PasteOnWhite (im_pixels im) (mode_eqb (im_mode im) MRGBA))
               (im_encodes im)
  else im.

Definition slide_filename (i : nat) : string :=
  ("slide_" ++ PyStr.zfill 3 (PyStr.str (i + 1)) ++ ".jpg")%string.

(** One turn of the loop of lines 206-232.  [image.split], [paste] and
    [image.save] all need the pixel data and sit in the same [try]: when
    the data cannot be loaded or encoded, or the mode is refused, the
    image leaves no entry. *)
Definition zip_step (i : nat) (image_url : URL) : M zipfile unit :=
  try_except
    (im <- download_image image_url ;;
     let filename := slide_filename i in
     let im' := to_rgb im in
     if can_save im'
     then modify_obj (fun z => z ++ [mkEntry filename 95 im'])
     else raise (if jpeg_writable (im_mode im')
                 then OSError else EncodeError (im_mode im')))
    (fun _ => ret tt).

Fixpoint zip_loop (i : nat) (images : list URL) : M zipfile unit :=
  match images with
  | [] => ret tt
  | image_url :: rest => zip_step i image_url ;;; zip_loop (S i) rest
  end.

Definition create_zip_from_images (images : list URL) (title : string)
  : M unit buffer :=
  try_except
    (zip_buffer <- BytesIO ;;
     r <- scoped ([] : zipfile) (zip_loop 0 images) ;;
     ret (mkBuffer zip_buffer (ZipContent (snd r))))
    (fun e => raise e).

(** *** [convert] *)

Definition renderer : Type := list URL -> string -> M unit buffer.

(** [v.lower()]: only a string has the method. *)
Definition py_lower {O} (v : jvalue) : M O string :=
  match v with
  | JStr s => ret (PyStr.lower s)
  | _ => raise (AttributeError "lower")
  end.

(** The body of [convert], over the three renderers it dispatches to.
    [data] is what [request.get_json()] returned, [None] for no JSON.
    The test [if file_buffer:] of line 279 is always true of a [BytesIO]
    object, so the buffer is always registered. *)
Definition convert_with (pdf ppt zip : renderer) (data : option body)
  : M unit response :=
  try_except
    (match data with
     | None => ret (Jsonify (Text "No JSON data provided") 400)
     | Some d =>
       if dict_is_empty d
       then ret (Jsonify (Text "No JSON data provided") 400)
       else
         let images := match b_images d with Some l => l | None => [] end in
         let title := match b_title d with
                      | Some t => t
                      | None => "Presentation"
                      end in
         format_type <- py_lower (match b_format d with
                                  | Some v => v
                                  | None => JStr "pdf"
                                  end) ;;
         match images with
         | [] => ret (Jsonify (Text "No images provided") 400)
         | _ :: _ =>
           if negb (PyStr.in_list format_type ["pdf"; "ppt"; "zip"])
           then ret (Jsonify
                       (Text "Invalid format. Must be pdf, ppt, or zip") 400)
           else
             r <- (if String.eqb format_type "pdf" then
                     file_buffer <- pdf images title ;;
                     ret (file_buffer, "application/pdf",
                          (title ++ ".pdf")%string)
                   else if String.eqb format_type "ppt" then
                     file_buffer <- ppt images title ;;
                     ret (file_buffer,
                          "application/vnd.openxmlformats-officedocument.presentationml.presentation",
                          (title ++ ".pptx")%string)
                   else if String.eqb format_type "zip" then
                     file_buffer <- zip images title ;;
                     ret (file_buffer, "application/zip",
                          (title ++ ".zip")%string)
                   else raise (NameError "mimetype")) ;;
             let '(file_buffer, mimetype, filename) := r in
             schedule_cleanup RBuffer None (Some (buf_id file_buffer)) ;;;
             ret (SendFile file_buffer mimetype filename)
         end
     end)
    (fun e => ret (Jsonify (ConversionFailed e) 500)).

Definition convert : option body -> M unit response :=
  convert_with create_pdf_from_images create_ppt_from_images
               create_zip_from_images.

(** The response of a request handled in state [s], and the state left. *)
Definition handle (data : option body) (s : state) : response * state :=
  match convert data tt s with
  | (Ok r, (_, s')) => (r, s')
  | (Raise e, (_, s')) => (Jsonify (ConversionFailed e) 500, s')
  end.

End App.

(** ** The cleanup thread *)

(** What the rest of the process does between two passes of the thread:
    time passes, and a request registers a resource. *)
Inductive activity : Type :=
| Elapse (dt : Z)
| Register (t : resource_type) (path buf : option nat).

Section Sweeper.

(** Clock ticks per second. *)
Variable hz : Z.

(** The files [os.unlink] fails on (it raises [OSError]). *)
Variable unlink_fails : nat -> bool.

Definition opt_nat_eqb (a b : option nat) : bool :=
  match a, b with
  | Some x, Some y => Nat.eqb x y
  | None, None => true
  | _, _ => false
  end.

Definition resource_type_eqb (a b : resource_type) : bool :=
  match a, b with
  | RFile, RFile | RBuffer, RBuffer | ROther, ROther => true
  | _, _ => false
  end.

(** Equality of two queue entries, as Python compares dictionaries. *)
Definition item_eqb (a b : item) : bool :=
  resource_type_eqb (i_type a) (i_type b)
  && opt_nat_eqb (i_path a) (i_path b)
  && opt_nat_eqb (i_buffer a) (i_buffer b)
  && Z.eqb (i_created a) (i_created b).

(** [l.remove(x)]: drops the first element equal to [x]. *)
Fixpoint list_remove (x : item) (l : list item) : list item :=
  match l with
  | [] => []
  | y :: r => if item_eqb y x then r else y :: list_remove x r
  end.

Definition path_exists (p : nat) (s : state) : bool :=
  existsb (fun e => Nat.eqb (fst e) p) (disk s).

Definition unlink (p : nat) (s : state) : state :=
  set_disk (filter (fun e => negb (Nat.eqb (fst e) p)) (disk s)) s.

(** Lines 41-47, the body of the inner [try]. *)
Definition release (it : item) : M unit unit :=
  match i_type it with
  | RFile =>
      match i_path it with
      | None => raise TypeError       (* os.path.exists(None) *)
      | Some p =>
          s <- get_state ;;
          if path_exists p s
          then if unlink_fails p then raise OSError
               else modify_state (unlink p)
          else ret tt
      end
  | RBuffer =>
      match i_buffer it with
      | Some b => modify_state (fun s => set_closed (closed s ++ [b]) s)
      | None => ret tt                (* None has no close *)
      end
  | ROther => ret tt
  end.

(** Line 39: older than five minutes. *)
Definition stale (current_time : Z) (it : item) : bool :=
  current_time - i_created it >? 300 * hz.

(** The first loop, lines 37-51: returns [items_to_remove]. *)
Fixpoint scan (current_time : Z) (queue : list item) (items_to_remove : list item)
  : M unit (list item) :=
  match queue with
  | [] => ret items_to_remove
  | it :: rest =>
      if stale current_time it
      then try_except (release it) (fun _ => ret tt) ;;;
           scan current_time rest (items_to_remove ++ [it])
      else scan current_time rest items_to_remove
  end.

(** One pass under the lock, lines 33-55. *)
Definition sweep (s : state) : state :=
  match scan (now s) (cleanup_queue s) [] tt s with
  | (Ok items_to_remove, (_, s')) =>
      set_cleanup_queue
        (fold_left (fun q it => list_remove it q) items_to_remove
                   (cleanup_queue s')) s'
  | (Raise _, (_, s')) => s'
  end.

(** What goes on from one reading of the clock by the thread (line 34) to
    the next: the rest of the pass, the garbage collection and
    [time.sleep(60)] take time, and the request threads call
    [schedule_cleanup] whenever the lock is free. *)
Definition act (a : activity) (s : state) : state :=
  match a with
  | Elapse dt => set_now (now s + dt) s
  | Register t path buf => snd (snd (schedule_cleanup (O:=unit) t path buf tt s))
  end.

(** One turn of the endless loop: the pass, then what goes on until the
    next pass begins. *)
Definition run_turn (tn : list activity) (s : state) : state :=
  fold_left (fun s0 a => act a s0) tn (sweep s).

(** [cleanup_resources], cut after the given turns of its endless loop. *)
Fixpoint cleanup_resources (turns : list (list activity)) (s : state) : state :=
  match turns with
  | [] => s
  | tn :: rest => cleanup_resources rest (run_turn tn s)
  end.

End Sweeper.

(** ** Vocabulary of the statements *)

(** A URL that answers with the same image at every call, and one that
    never answers. *)
Definition reachable (net : nat -> URL -> option image) (u : URL) (im : image)
  : Prop := forall k, net k u = Some im.

Definition unreachable (net : nat -> URL -> option image) (u : URL) : Prop :=
  forall k, net k u = None.

(** The canvas a PDF step leaves when it paints the file [path]. *)
Definition painted (width height : Z) (len i path : nat) (c : canvas) : canvas :=
  let c1 := drawImage path 0 0 width height c in
  if Nat.ltb i (len - 1) then showPage c1 else c1.

(** The state a step leaves after a failed download of [u]. *)
Definition after_fetch (u : URL) (s : state) : state :=
  set_fetched (fetched s ++ [u]) s.

(** The state after a temporary file was created for a downloaded image. *)
Definition after_tempfile (u : URL) (s : state) : state :=
  set_next_tmp (S (next_tmp s))
    (set_disk (disk s ++ [(next_tmp s, None)]) (after_fetch u s)).

(** The state after the image was saved in it and the file registered. *)
Definition after_save (u : URL) (im : image) (s : state) : state :=
  let s1 := after_tempfile u s in
  let s2 := set_disk (write_file (next_tmp s) im (disk s1)) s1 in
  set_cleanup_queue
    (cleanup_queue s2 ++ [mkItem RFile (Some (next_tmp s)) None (now s2)]) s2.

(** Every closed page of the canvas has the page size of the canvas. *)
Definition uniform (c : canvas) : Prop :=
  Forall (fun p => pg_size p = pagesize c) (pages c).

(** A call log in which every image drawn is followed by a page break. *)
Inductive broken_log : list canvas_call -> Prop :=
| broken_nil : broken_log []
| broken_snoc l p :
    broken_log l -> broken_log (l ++ [CallDrawImage p; CallShowPage]).

(** The log ends with a page break. *)
Definition ends_with_break (l : list canvas_call) : bool :=
  match List.rev l with
  | CallShowPage :: _ => true
  | _ => false
  end.

(** Sample images and worlds for the examples below. *)
Definition a_png : URL := "https://x/a.png".
Definition b_png : URL := "https://x/b.png".

Definition sample (m : mode) : image := mkImage m 640 480 (Decoded 0) true.

(** [a.png] always answers with an image of mode [m]; nothing else does. *)
Definition only_a (m : mode) : nat -> URL -> option image :=
  fun _ u => if String.eqb u a_png then Some (sample m) else None.

(** Both [a.png] and [b.png] answer with an image of mode [m]. *)
Definition a_and_b (m : mode) : nat -> URL -> option image :=
  fun _ u => if orb (String.eqb u a_png) (String.eqb u b_png)
             then Some (sample m) else None.

Definition fresh : state := mkState [] [] 0 0 [] 0 [].

(** A world in which nothing can be fetched. *)
Definition offline : nat -> URL -> option image := fun _ _ => None.

(** The eleven layouts of the default template of python-pptx. *)
Definition template_layouts : list nat :=
  [0; 1; 2; 3; 4; 5; 6; 7; 8; 9; 10]%nat.

(** What line 147 does with python-pptx as it is: the collection that
    [prs.slide_layouts] returns has no attribute [_sldLayouts], and the
    statement raises [AttributeError]. *)
Definition python_pptx_clear : list nat -> option (list nat) := fun _ => None.

(** C4 as the claim words its scenario: first URL reachable, second not,
    then the document has exactly one page, of the first image's size. *)
Definition pdf_single_page_scenario : Prop :=
  forall net u1 u2 im title s,
    reachable net u1 im -> unreachable net u2 ->
    exists c s' ops,
      create_pdf_from_images net [u1; u2] title tt s
      = (Ok (mkBuffer (next_buf s) (PdfContent c)), (tt, s'))
      /\ pages c = [mkPage (size im) ops].

(** C5 as the claim words it: whatever the input, no page break follows
    the last image painted. *)
Definition no_break_after_last_painted : Prop :=
  forall net images title s b s' c,
    create_pdf_from_images net images title tt s = (Ok b, (tt, s')) ->
    buf_content b = PdfContent c ->
    ends_with_break (calls c) = false.

(** How many of [images] are fetched when the first of them is asked for
    at call number [k] and each of the following at the next call. *)
Fixpoint fetched_count (net : nat -> URL -> option image) (k : nat)
         (images : list URL) : nat :=
  match images with
  | [] => 0%nat
  | u :: rest =>
      ((match net k u with Some _ => 1 | None => 0 end)
       + fetched_count net (S k) rest)%nat
  end.

(** The entry the archive gets for a downloaded image at position [i], if
    any: none when [image.save] fails on the image that [to_rgb] gives. *)
Definition zip_entry_of (i : nat) (im : image) : list zip_entry :=
  if can_save (to_rgb im)
  then [mkEntry (slide_filename i) 95 (to_rgb im)]
  else [].

(** The entries for [images], the first at position [i] and fetched at
    call number [k]. *)
Fixpoint zip_entries (net : nat -> URL -> option image) (k i : nat)
         (images : list URL) : list zip_entry :=
  match images with
  | [] => []
  | u :: rest =>
      match net k u with
      | Some im => zip_entry_of i im
      | None => []
      end ++ zip_entries net (S k) (S i) rest
  end.

(** C6 as the claim words it: every image fetched has its entry, of
    quality 95, under the name of its position. *)
Definition zip_entry_per_fetched_image : Prop :=
  forall net images title s,
    exists z s',
      create_zip_from_images net images title tt s
      = (Ok (mkBuffer (next_buf s) (ZipContent z)), (tt, s'))
      /\ forall j u im,
           nth_error images j = Some u ->
           net (List.length (fetched s) + j)%nat u = Some im ->
           exists e, In e z /\ ze_name e = slide_filename j
                     /\ ze_quality e = 95.



(** The storage behind a queue entry is released in state [s]: its file is
    gone unless [os.unlink] fails on it, its buffer is closed. *)
Definition released (unlink_fails : nat -> bool) (it : item) (s : state) : Prop :=
  match i_type it with
  | RFile =>
      match i_path it with
      | Some p => unlink_fails p = false -> path_exists p s = false
      | None => True
      end
  | RBuffer =>
      match i_buffer it with
      | Some b => In b (closed s)
      | None => True
      end
  | ROther => True
  end.

(** When a cleanup thread started at [t0], each of whose turns lasts
    sixty seconds, begins its pass number [k] (the first pass is number
    0). *)
Definition wake_time (hz t0 : Z) (k : nat) : Z := t0 + Z.of_nat k * (60 * hz).

(** How many of [images] are fetched and can be saved as JPEG, the first
    of them being asked for at call number [k]. *)
Fixpoint encodable_count (net : nat -> URL -> option image) (k : nat)
         (images : list URL) : nat :=
  match images with
  | [] => 0%nat
  | u :: rest =>
      ((match net k u with
        | Some im => if can_save im then 1 else 0
        | None => 0
        end)
       + encodable_count net (S k) rest)%nat
  end.

(** A page that shows one image, drawn from the origin over [w] by [h]. *)
Definition full_page (w h : Z) (p : page) : Prop :=
  pg_size p = (w, h) /\ exists path, pg_images p = [(path, 0, 0, w, h)].

(** A queue entry for a temporary file numbered from [lo] up to [hi]
    excluded, registered at time [t]. *)
Definition file_entry (lo hi : nat) (t : Z) (it : item) : Prop :=
  i_type it = RFile /\ i_buffer it = None /\ i_created it = t
  /\ exists p, i_path it = Some p /\ (lo <= p < hi)%nat.

(** From [s] to [s'] the cleanup queue only grew at its end, by entries
    stamped with the time of [s]; the clock did not move and no buffer was
    closed. *)
Definition appends_only (s s' : state) : Prop :=
  exists q',
    cleanup_queue s' = cleanup_queue s ++ q'
    /\ Forall (fun it => i_created it = now s) q'
    /\ now s' = now s /\ closed s' = closed s.

(** The format and the title [convert] works with (lines 250-251): the
    defaults when the key is absent; no format when the value is not a
    string. *)
Definition requested_format (d : body) : option string :=
  match b_format d with
  | None => Some "pdf"
  | Some (JStr f) => Some (PyStr.lower f)
  | Some _ => None
  end.

Definition requested_title (d : body) : string :=
  match b_title d with
  | Some t => t
  | None => "Presentation"
  end.

(** From [s] to [s'] nothing was released but what the entries of [q]
    that are stale at time [t] name: a file on disk that none of them
    names is still there, and a buffer closed in [s'] was closed in [s]
    already or is the buffer of one of them. *)
Definition releases_within (hz t : Z) (q : list item) (s s' : state) : Prop :=
  (forall p,
      path_exists p s = true ->
      (forall it, In it q -> stale hz t it = true -> i_type it = RFile ->
                  i_path it <> Some p) ->
      path_exists p s' = true)
  /\ (forall b,
        In b (closed s') ->
        In b (closed s)
        \/ exists it, In it q /\ stale hz t it = true
                       /\ i_type it = RBuffer /\ i_buffer it = Some b).

(** How many images the canvas was asked to draw. *)
Fixpoint draw_count (l : list canvas_call) : nat :=
  match l with
  | [] => 0%nat
  | CallDrawImage _ :: r => S (draw_count r)
  | CallShowPage :: r => draw_count r
  end.

(** The time a turn of the thread lasts. *)
Fixpoint elapsed (tn : list activity) : Z :=
  match tn with
  | [] => 0
  | Elapse dt :: r => dt + elapsed r
  | Register _ _ _ :: r => elapsed r
  end.

(** Time does not run backwards. *)
Definition forward (tn : list activity) : Prop :=
  Forall (fun a => match a with Elapse dt => 0 <= dt | _ => True end) tn.

(** A turn as the loop makes it: [time.sleep(60)] lasts sixty seconds at
    least, and the pass and whatever else delays the thread add at most
    [D] to it. *)
Definition turn_ok (hz D : Z) (tn : list activity) : Prop :=
  forward tn /\ 60 * hz <= elapsed tn <= 60 * hz + D.

(** C9 as the claim words it: an entry registered at time [T] is off the
    queue at any moment from [T] plus 300 seconds plus 60 seconds on.
    The run is the turns before the registration, the turn in which it
    happens, the turns after it, and the pass and activities of the turn
    under way. *)
Definition reclaimed_within_one_interval : Prop :=
  forall (hz : Z) (unlink_fails : nat -> bool) (D : Z)
         (turns1 : list (list activity)) (pre : list activity)
         (t : resource_type) (path buf : option nat) (post : list activity)
         (turns2 : list (list activity)) (cur : list activity) (s0 : state),
    0 < hz -> 0 <= D ->
    Forall (turn_ok hz D)
           (turns1 ++ [pre ++ Register t path buf :: post] ++ turns2) ->
    forward cur ->
    let T := now (fold_left (fun s a => act a s) pre
                    (sweep hz unlink_fails
                       (cleanup_resources hz unlink_fails turns1 s0))) in
    let s := run_turn hz unlink_fails cur
               (cleanup_resources hz unlink_fails
                  (turns1 ++ [pre ++ Register t path buf :: post] ++ turns2)
                  s0) in
    T + 300 * hz + 60 * hz <= now s ->
    ~ In (mkItem t path buf T) (cleanup_queue s).

(** * Properties *)

Ltac unfold_monad :=
  unfold bind, ret, raise, try_except, scoped, get_obj, modify_obj,
         get_state, modify_state in *.

(** ** Lowercasing *)

Lemma lower_ascii_idem (c : ascii) :
  PyStr.lower_ascii (PyStr.lower_ascii c) = PyStr.lower_ascii c.
Proof.
  destruct c as [[] [] [] [] [] [] [] []]; reflexivity.
Qed.

Lemma lower_idem (s : string) : PyStr.lower (PyStr.lower s) = PyStr.lower s.
Proof.
  induction s as [|c r IH]; simpl; [reflexivity|].
  now rewrite lower_ascii_idem, IH.
Qed.

Section ConvertProps.

Variable net : nat -> URL -> option image.
Variable default_layouts : list nat.
Variable sldLayouts_clear : list nat -> option (list nat).

(** A request whose [format] is a string (or is absent) is refused with
    status 400 when it has no image or when the lowercased format is not
    one of the three names; the renderers do not matter, and the state
    is left as it was: nothing is fetched, nothing is registered. *)
Lemma convert_validation_string_format
      (pdf ppt zip : renderer) (d : body) (f : string) (s : state) :
  dict_is_empty d = false ->
  (b_format d = Some (JStr f) \/ (b_format d = None /\ f = "pdf")) ->
  (b_images d = None \/ b_images d = Some [] \/
   PyStr.in_list (PyStr.lower f) ["pdf"; "ppt"; "zip"] = false) ->
  exists msg,
    convert_with pdf ppt zip (Some d) tt s
    = (Ok (Jsonify (Text msg) 400), (tt, s)).
Proof.
  intros Hne Hf Hbad.
  unfold convert_with. unfold_monad. rewrite Hne.
  assert (Hfmt : py_lower (O:=unit)
                   (match b_format d with Some v => v | None => JStr "pdf" end)
                   tt s = (Ok (PyStr.lower f), (tt, s))).
  { destruct Hf as [-> | [-> ->]]; reflexivity. }
  unfold_monad. rewrite Hfmt.
  destruct (b_images d) as [[|u rest]|] eqn:Himg.
  - eexists; reflexivity.
  - destruct Hbad as [Hb | [Hb | Hb]]; try discriminate.
    rewrite Hb. simpl. eexists; reflexivity.
  - eexists; reflexivity.
Qed.

(** C2, at the input where the code departs from it: a request whose
    [format] is JSON [null] is answered with status 500, not with the
    400 of a validation error, whatever its images are -- even with an
    empty image list, since the format is lowercased before the images
    are looked at.  No renderer runs and nothing is fetched. *)
Theorem convert_null_format_is_500
        (pdf ppt zip : renderer) (imgs : option (list URL))
        (title : option string) (other : bool) (s : state) :
  convert_with pdf ppt zip (Some (mkBody imgs title (Some JNull) other)) tt s
  = (Ok (Jsonify (ConversionFailed (AttributeError "lower")) 500), (tt, s)).
Proof.
  unfold convert_with. unfold_monad.
  destruct imgs, title; reflexivity.
Qed.

(** C3: a request for a PDF whose first image cannot be fetched is
    answered with status 500 carrying the fetch error; no file is sent. *)
Theorem pdf_first_image_unreachable_is_500
        (u : URL) (rest : list URL) (title : option string) (f : string)
        (other : bool) (s : state) :
  PyStr.lower f = "pdf" ->
  net (List.length (fetched s)) u = None ->
  fst (handle net default_layouts sldLayouts_clear (Some (mkBody (Some (u :: rest)) title (Some (JStr f)) other)) s)
  = Jsonify (ConversionFailed (FetchError u)) 500.
Proof.
  intros Hf Hnet.
  unfold handle, convert, convert_with. unfold_monad.
  cbn [dict_is_empty b_images b_title b_format b_other_keys py_lower].
  unfold_monad. rewrite Hf.
  change (PyStr.in_list "pdf" ["pdf"; "ppt"; "zip"]) with true.
  change (("pdf" =? "pdf")%string) with true. cbn [negb].
  unfold create_pdf_from_images, BytesIO, download_image. unfold_monad.
  cbn [fetched set_next_buf]. rewrite Hnet. reflexivity.
Qed.

(** A request that passes validation is answered by a file or by the
    500 of a failed conversion, never by a 400. *)
Lemma convert_with_accepts
      (pdf ppt zip : renderer) (u : URL) (rest : list URL)
      (title : option string) (f : string) (other : bool) (s : state) :
  PyStr.in_list (PyStr.lower f) ["pdf"; "ppt"; "zip"] = true ->
  forall r os,
    convert_with pdf ppt zip
      (Some (mkBody (Some (u :: rest)) title (Some (JStr f)) other)) tt s
    = (r, os) ->
    exists resp, r = Ok resp /\ status_of resp <> 400.
Proof.
  intros Hin r os.
  unfold convert_with. unfold_monad.
  cbn [dict_is_empty b_images b_title b_format b_other_keys py_lower].
  unfold_monad. rewrite Hin. cbn [negb].
  set (t := match title with Some t => t | None => "Presentation" end).
  assert (Hcase : (PyStr.lower f =? "pdf")%string = true
                  \/ ((PyStr.lower f =? "pdf")%string = false
                      /\ (PyStr.lower f =? "ppt")%string = true)
                  \/ ((PyStr.lower f =? "pdf")%string = false
                      /\ (PyStr.lower f =? "ppt")%string = false
                      /\ (PyStr.lower f =? "zip")%string = true)).
  { cbn [PyStr.in_list existsb] in Hin.
    destruct (PyStr.lower f =? "pdf")%string; [now left|].
    destruct (PyStr.lower f =? "ppt")%string; [now right; left|].
    destruct (PyStr.lower f =? "zip")%string; [now right; right|].
    discriminate. }
  destruct Hcase as [H1 | [[H1 H2] | [H1 [H2 H3]]]].
  - rewrite H1. destruct (pdf (u :: rest) t tt s) as [[b|e] [o s']];
      unfold schedule_cleanup; unfold_monad;
      intros E; inversion E; subst; eexists; split;
        try reflexivity; cbn; discriminate.
  - rewrite H1, H2. destruct (ppt (u :: rest) t tt s) as [[b|e] [o s']];
      unfold schedule_cleanup; unfold_monad;
      intros E; inversion E; subst; eexists; split;
        try reflexivity; cbn; discriminate.
  - rewrite H1, H2, H3. destruct (zip (u :: rest) t tt s) as [[b|e] [o s']];
      unfold schedule_cleanup; unfold_monad;
      intros E; inversion E; subst; eexists; split;
        try reflexivity; cbn; discriminate.
Qed.

(** C10: [convert] sees the format only through [str.lower]: a request
    whose format lowercases to one of the three names is handled exactly
    as the same request with the format in lowercase, and, when it has
    an image, it is not refused: the status is not 400. *)
Theorem convert_format_case_insensitive
        (u : URL) (rest : list URL) (title : option string) (f : string)
        (other : bool) (s : state) :
  PyStr.in_list (PyStr.lower f) ["pdf"; "ppt"; "zip"] = true ->
  handle net default_layouts sldLayouts_clear (Some (mkBody (Some (u :: rest)) title (Some (JStr f)) other)) s
  = handle net default_layouts sldLayouts_clear (Some (mkBody (Some (u :: rest)) title
                     (Some (JStr (PyStr.lower f))) other)) s
  /\ status_of
       (fst (handle net default_layouts sldLayouts_clear (Some (mkBody (Some (u :: rest)) title
                              (Some (JStr f)) other)) s)) <> 400.
Proof.
  intros Hin. split.
  - unfold handle, convert, convert_with. unfold_monad.
    cbn [dict_is_empty b_images b_title b_format b_other_keys py_lower].
    unfold_monad. now rewrite lower_idem.
  - unfold handle, convert.
    destruct (convert_with _ _ _ _ tt s) as [r os] eqn:E.
    destruct (convert_with_accepts _ _ _ _ _ _ _ _ _ Hin _ _ E)
      as (resp & -> & Hst).
    destruct os. exact Hst.
Qed.

End ConvertProps.

(** ** The PDF renderer *)

Section PdfProps.

Variable net : nat -> URL -> option image.

(** What one turn of the loop does, case by case. *)
Lemma pdf_step_eq (w h : Z) (len i : nat) (u : URL) (c : canvas) (s : state) :
  pdf_step net w h len i u c s =
  match net (List.length (fetched s)) u with
  | None => (Ok tt, (c, after_fetch u s))
  | Some im =>
      if can_save im
      then (Ok tt, (painted w h len i (next_tmp s) c, after_save u im s))
      else (Ok tt, (c, after_tempfile u s))
  end.
Proof.
  unfold pdf_step, download_image, NamedTemporaryFile, save_jpeg,
    schedule_cleanup, painted.
  unfold_monad.
  destruct (net (List.length (fetched s)) u) as [im|]; [|reflexivity].
  destruct (can_save im); unfold_monad; [|reflexivity].
  destruct (Nat.ltb i (len - 1)); reflexivity.
Qed.

Lemma painted_pagesize w h len i p c :
  pagesize (painted w h len i p c) = pagesize c.
Proof. unfold painted. destruct (Nat.ltb i (len - 1)); reflexivity. Qed.

Lemma painted_uniform w h len i p c :
  uniform c -> uniform (painted w h len i p c).
Proof.
  unfold painted, uniform. intros U.
  destruct (Nat.ltb i (len - 1)); cbn; [|exact U].
  apply Forall_app. split; [exact U|]. now constructor.
Qed.

Lemma save_uniform c : uniform c -> uniform (save c).
Proof.
  unfold save, uniform. intros U. destruct (code c); [exact U|].
  cbn. apply Forall_app. split; [exact U|]. now constructor.
Qed.

Lemma save_pagesize c : pagesize (save c) = pagesize c.
Proof. unfold save. now destruct (code c). Qed.

(** The loop never raises; it keeps the page size and fetches every URL
    once, in order. *)
Lemma pdf_loop_ok (w h : Z) (len : nat) (images : list URL) :
  forall (i : nat) (c : canvas) (s : state),
  exists c' s',
    pdf_loop net w h len i images c s = (Ok tt, (c', s'))
    /\ pagesize c' = pagesize c
    /\ (uniform c -> uniform c')
    /\ fetched s' = fetched s ++ images
    /\ next_buf s' = next_buf s.
Proof.
  induction images as [|u rest IH]; intros i c s.
  - exists c, s. cbn. unfold_monad. rewrite app_nil_r. auto.
  - cbn [pdf_loop]. unfold bind. rewrite pdf_step_eq.
    destruct (net (List.length (fetched s)) u) as [im|].
    + destruct (can_save im).
      * destruct (IH (S i) (painted w h len i (next_tmp s) c) (after_save u im s))
          as (c' & s' & E & Hp & Hu & Hf & Hb).
        exists c', s'. rewrite E. repeat split; auto.
        -- now rewrite Hp, painted_pagesize.
        -- intros U. now apply Hu, painted_uniform.
        -- rewrite Hf. cbn. now rewrite <- app_assoc.
      * destruct (IH (S i) c (after_tempfile u s))
          as (c' & s' & E & Hp & Hu & Hf & Hb).
        exists c', s'. rewrite E. repeat split; auto.
        rewrite Hf. cbn. now rewrite <- app_assoc.
    + destruct (IH (S i) c (after_fetch u s))
        as (c' & s' & E & Hp & Hu & Hf & Hb).
      exists c', s'. rewrite E. repeat split; auto.
      rewrite Hf. cbn. now rewrite <- app_assoc.
Qed.

(** The renderer once its first download succeeded. *)
Lemma create_pdf_eq (u : URL) (rest : list URL) (title : string)
      (s : state) (im : image) :
  net (List.length (fetched s)) u = Some im ->
  create_pdf_from_images net (u :: rest) title tt s =
  match pdf_loop net (im_width im) (im_height im) (S (List.length rest)) 0
                 (u :: rest) (Canvas (size im))
                 (after_fetch u (set_next_buf (S (next_buf s)) s)) with
  | (Ok _, (c, s1)) =>
      (Ok (mkBuffer (next_buf s) (PdfContent (save c))), (tt, s1))
  | (Raise e, (_, s1)) => (Raise e, (tt, s1))
  end.
Proof.
  intros Hnet.
  unfold create_pdf_from_images, BytesIO, download_image. unfold_monad.
  cbn [fetched set_next_buf]. rewrite Hnet. cbn [size].
  unfold after_fetch. cbn [List.length].
  destruct (pdf_loop _ _ _ _ _ _ _ _) as [[[]|e] [c s1]]; reflexivity.
Qed.

(** Page geometry: once the first download succeeds the renderer returns
    a document, and every page of it has the pixel size of that first
    image; a URL whose download fails costs its turn of the loop nothing
    but the attempt (the canvas is untouched, the loop goes on); and for
    two URLs, the first answering again in the loop with an image that
    [image.save] can write as JPEG and the second not answering, the
    document is the single page showing the first image at full page
    size. *)
Theorem pdf_page_geometry (u : URL) (rest : list URL) (title : string)
        (s : state) (im : image) :
  net (List.length (fetched s)) u = Some im ->
  exists c s',
    create_pdf_from_images net (u :: rest) title tt s
    = (Ok (mkBuffer (next_buf s) (PdfContent c)), (tt, s'))
    /\ Forall (fun p => pg_size p = size im) (pages c)
    /\ (forall w h len i u' c0 s0,
          net (List.length (fetched s0)) u' = None ->
          pdf_step net w h len i u' c0 s0 = (Ok tt, (c0, after_fetch u' s0)))
    /\ (forall u2,
          rest = [u2] ->
          can_save im = true ->
          net (S (List.length (fetched s))) u = Some im ->
          net (S (S (List.length (fetched s)))) u2 = None ->
          pages c = [mkPage (size im)
                       [(next_tmp s, 0, 0, im_width im, im_height im)]]).
Proof.
  intros Hnet.
  destruct (pdf_loop_ok (im_width im) (im_height im) (S (List.length rest))
              (u :: rest) 0%nat (Canvas (size im))
              (after_fetch u (set_next_buf (S (next_buf s)) s)))
    as (c' & s' & E & Hp & Hu & _ & _).
  exists (save c'), s'. rewrite (create_pdf_eq _ _ _ _ _ Hnet), E.
  split; [reflexivity|]. split; [|split].
  - assert (U : uniform (save c')).
    { apply save_uniform, Hu. constructor. }
    unfold uniform in U. rewrite save_pagesize, Hp in U. exact U.
  - intros w h len i u' c0 s0 Hnone. now rewrite pdf_step_eq, Hnone.
  - intros u2 -> Hw Hnet1 Hnet2.
    cbn [pdf_loop List.length] in E. unfold bind in E.
    rewrite pdf_step_eq in E.
    assert (L1 : List.length (fetched s ++ [u]) = S (List.length (fetched s)))
      by (rewrite length_app; cbn; lia).
    assert (L2 : List.length ((fetched s ++ [u]) ++ [u])
                 = S (S (List.length (fetched s))))
      by (rewrite !length_app; cbn; lia).
    cbn [after_fetch fetched set_fetched set_next_buf] in E.
    rewrite L1, Hnet1, Hw in E. cbn beta iota in E.
    rewrite pdf_step_eq in E.
    cbn [after_save after_tempfile after_fetch fetched set_fetched
         set_next_tmp set_disk set_cleanup_queue set_next_buf] in E.
    rewrite L2, Hnet2 in E.
    cbn in E. unfold_monad. inversion E; subst. reflexivity.
Qed.

Lemma save_calls c : calls (save c) = calls c.
Proof. unfold save. now destruct (code c). Qed.

End PdfProps.

(** The two-URL scenario on a sample: an RGB [a.png] reachable, [b.png]
    not. *)
Lemma pdf_page_geometry_witness :
  exists c s',
    create_pdf_from_images (only_a MRGB) [a_png; b_png] "deck" tt fresh
    = (Ok (mkBuffer 0 (PdfContent c)), (tt, s'))
    /\ Forall (fun p => pg_size p = (640, 480)) (pages c)
    /\ (forall w h len i u' c0 s0,
          only_a MRGB (List.length (fetched s0)) u' = None ->
          pdf_step (only_a MRGB) w h len i u' c0 s0
          = (Ok tt, (c0, after_fetch u' s0)))
    /\ (forall u2,
          [b_png] = [u2] ->
          can_save (sample MRGB) = true ->
          only_a MRGB 1%nat a_png = Some (sample MRGB) ->
          only_a MRGB 2%nat u2 = None ->
          pages c = [mkPage (640, 480) [(0%nat, 0, 0, 640, 480)]]).
Proof.
  exact (pdf_page_geometry (only_a MRGB) a_png [b_png] "deck" fresh
           (sample MRGB) eq_refl).
Defined.

(** C4, where the code departs from it: the PDF path saves the image as
    JPEG without the conversion of RGBA that the ZIP path makes first
    (lines 216-220).  With an RGBA [a.png], fetched at every call, and an
    unreachable [b.png], the save raises, the image is skipped and the
    document has no page at all, where the claim has a single page. *)
Lemma pdf_rgba_first_image_no_page : ~ pdf_single_page_scenario.
Proof.
  intros H.
  destruct (H (only_a MRGBA) a_png b_png (sample MRGBA) "deck" fresh)
    as (c & s' & ops & E & Hpages).
  - intros k. reflexivity.
  - intros k. reflexivity.
  - vm_compute in E. inversion E; subst. discriminate Hpages.
Qed.

(** C5 as worded fails when a trailing image is not fetched: after
    [a.png] is painted and [b.png] fails, the log of the canvas is the
    image followed by a page break. *)
Lemma pdf_break_after_last_painted : ~ no_break_after_last_painted.
Proof.
  intros H.
  assert (E : create_pdf_from_images (only_a MRGB) [a_png; b_png] "deck" tt fresh
              = (Ok (mkBuffer 0 (PdfContent
                       (mkCanvas (640, 480) []
                          [mkPage (640, 480) [(0%nat, 0, 0, 640, 480)]]
                          [CallDrawImage 0; CallShowPage]))),
                 (tt, snd (snd (create_pdf_from_images (only_a MRGB)
                                  [a_png; b_png] "deck" tt fresh)))))
    by (vm_compute; reflexivity).
  specialize (H _ _ _ _ _ _ _ E eq_refl). discriminate H.
Qed.

(** ** The deck renderer *)

Section PptProps.

Variable net : nat -> URL -> option image.
Variable default_layouts : list nat.

Lemma ppt_step_eq (i : nat) (u : URL) (prs : presentation) (s : state) :
  ppt_step net i u prs s =
  match net (List.length (fetched s)) u with
  | None => (Ok tt, (prs, after_fetch u s))
  | Some im =>
      match slide_layouts prs with
      | [] => (Ok tt, (prs, after_fetch u s))
      | l0 :: _ =>
          if can_save im
          then (Ok tt,
                (add_picture (next_tmp s) 0 0 Inches_10 Inches_7_5
                   (add_slide l0 prs),
                 after_save u im s))
          else (Ok tt, (add_slide l0 prs, after_tempfile u s))
      end
  end.
Proof.
  unfold ppt_step, download_image, NamedTemporaryFile, save_jpeg,
    schedule_cleanup.
  unfold_monad.
  destruct (net (List.length (fetched s)) u) as [im|]; [|reflexivity].
  destruct (slide_layouts prs) as [|l0 ls]; [reflexivity|].
  unfold_monad.
  destruct (can_save im); reflexivity.
Qed.

(** With no layout left, no turn of the loop adds a slide, whatever the
    network answers: [prs.slide_layouts[6]] raises on the empty list. *)
Lemma ppt_loop_no_layout (images : list URL) :
  forall (i : nat) (prs : presentation) (s : state),
    slide_layouts prs = [] ->
    ppt_loop net i images prs s
    = (Ok tt, (prs, set_fetched (fetched s ++ images) s)).
Proof.
  induction images as [|u rest IH]; intros i prs s Hl.
  - cbn. unfold_monad. rewrite app_nil_r. now destruct s.
  - cbn [ppt_loop]. unfold bind. rewrite ppt_step_eq, Hl.
    assert (E : match net (List.length (fetched s)) u with
                | Some _ => (Ok tt, (prs, after_fetch u s))
                | None => (Ok tt, (prs, after_fetch u s))
                end = (Ok (A:=unit) tt, (prs, after_fetch u s)))
      by now destruct (net _ u).
    rewrite E, (IH _ _ _ Hl). cbn. now rewrite <- app_assoc.
Qed.

(** When no URL answers, the loop leaves the presentation as it was. *)
Lemma ppt_loop_all_fail (images : list URL) :
  (forall k u, In u images -> net k u = None) ->
  forall (i : nat) (prs : presentation) (s : state),
    ppt_loop net i images prs s
    = (Ok tt, (prs, set_fetched (fetched s ++ images) s)).
Proof.
  induction images as [|u rest IH]; intros Hfail i prs s.
  - cbn. unfold_monad. rewrite app_nil_r. now destruct s.
  - cbn [ppt_loop]. unfold bind.
    rewrite ppt_step_eq, (Hfail _ u (or_introl eq_refl)).
    rewrite IH by (intros k u' Hin; apply Hfail; now right).
    cbn. now rewrite <- app_assoc.
Qed.

Lemma add_picture_length p l t w h prs :
  List.length (slides (add_picture p l t w h prs)) = List.length (slides prs).
Proof.
  unfold add_picture.
  destruct (List.rev (slides prs)) as [|sl before] eqn:E; [reflexivity|].
  cbn. rewrite length_app, length_rev. cbn.
  rewrite <- (length_rev (slides prs)), E. cbn. lia.
Qed.

Lemma add_picture_layouts p l t w h prs :
  slide_layouts (add_picture p l t w h prs) = slide_layouts prs.
Proof.
  unfold add_picture. now destruct (List.rev (slides prs)).
Qed.

(** With a layout at hand, every image fetched gets its slide. *)
Lemma ppt_loop_counts (images : list URL) :
  forall (i : nat) (prs : presentation) (s : state),
    slide_layouts prs <> [] ->
    exists prs' s',
      ppt_loop net i images prs s = (Ok tt, (prs', s'))
      /\ List.length (slides prs')
         = (List.length (slides prs)
            + fetched_count net (List.length (fetched s)) images)%nat.
Proof.
  induction images as [|u rest IH]; intros i prs s Hl.
  - exists prs, s. cbn. unfold_monad. split; [reflexivity|lia].
  - cbn [ppt_loop fetched_count]. unfold bind. rewrite ppt_step_eq.
    assert (L : forall s1, fetched s1 = fetched s ++ [u] ->
                List.length (fetched s1) = S (List.length (fetched s)))
      by (intros s1 ->; rewrite length_app; cbn; lia).
    destruct (net (List.length (fetched s)) u) as [im|].
    + destruct (slide_layouts prs) as [|l0 ls] eqn:El; [contradiction|].
      destruct (can_save im).
      * destruct (IH (S i) (add_picture (next_tmp s) 0 0 Inches_10 Inches_7_5
                              (add_slide l0 prs)) (after_save u im s))
          as (prs' & s' & E & Hn).
        { rewrite add_picture_layouts. cbn. now rewrite El. }
        exists prs', s'. rewrite E. split; [reflexivity|].
        rewrite Hn, add_picture_length, (L (after_save u im s) eq_refl).
        cbn. rewrite length_app. cbn. lia.
      * destruct (IH (S i) (add_slide l0 prs) (after_tempfile u s))
          as (prs' & s' & E & Hn).
        { cbn. now rewrite El. }
        exists prs', s'. rewrite E. split; [reflexivity|].
        rewrite Hn, (L (after_tempfile u s) eq_refl).
        cbn. rewrite length_app. cbn. lia.
    + destruct (IH (S i) prs (after_fetch u s) Hl) as (prs' & s' & E & Hn).
      exists prs', s'. rewrite E. split; [reflexivity|].
      rewrite Hn, (L (after_fetch u s) eq_refl). lia.
Qed.

Lemma create_ppt_eq (clear : list nat -> option (list nat))
      (images : list URL) (title : string) (s : state) :
  create_ppt_from_images net default_layouts clear images title tt s =
  match clear default_layouts with
  | None => (Raise (AttributeError "_sldLayouts"), (tt, s))
  | Some ls =>
      match ppt_loop net 0 images (mkPresentation ls []) s with
      | (Ok _, (prs, s1)) =>
          (Ok (mkBuffer (next_buf s1) (PptContent prs)),
           (tt, set_next_buf (S (next_buf s1)) s1))
      | (Raise e, (_, s1)) => (Raise e, (tt, s1))
      end
  end.
Proof.
  unfold create_ppt_from_images, BytesIO, Presentation. unfold_monad.
  destruct (clear default_layouts) as [ls|]; [|reflexivity].
  cbn [slides].
  destruct (ppt_loop net 0 images _ s) as [[[]|e] [prs s1]]; reflexivity.
Qed.

(** C1, where the code departs from it.  Line 147 is meant to remove the
    layouts of the template; when it does, every turn of the loop fails
    on [prs.slide_layouts[6]] and the deck comes out with no slide at
    all, however many images were fetched; and when the statement
    raises, the renderer fails before the first download. *)
Theorem ppt_layouts_removed_no_slide
        (images : list URL) (title : string) (s : state) :
  create_ppt_from_images net default_layouts (fun _ => Some []) images
                         title tt s
  = (Ok (mkBuffer (next_buf s) (PptContent (mkPresentation [] []))),
     (tt, set_next_buf (S (next_buf s)) (set_fetched (fetched s ++ images) s)))
  /\ create_ppt_from_images net default_layouts (fun _ => None) images
                            title tt s
     = (Raise (AttributeError "_sldLayouts"), (tt, s)).
Proof.
  split; rewrite create_ppt_eq; [|reflexivity].
  now rewrite ppt_loop_no_layout.
Qed.

(** Had line 147 left a layout in place, the deck would have one slide
    for each image fetched. *)
Lemma ppt_slide_per_fetched_image
      (clear : list nat -> option (list nat)) (l0 : nat) (ls : list nat)
      (images : list URL) (title : string) (s : state) :
  clear default_layouts = Some (l0 :: ls) ->
  exists b prs s',
    create_ppt_from_images net default_layouts clear images title tt s
    = (Ok b, (tt, s'))
    /\ buf_content b = PptContent prs
    /\ List.length (slides prs)
       = fetched_count net (List.length (fetched s)) images.
Proof.
  intros Hc. rewrite create_ppt_eq, Hc.
  destruct (ppt_loop_counts images 0%nat (mkPresentation (l0 :: ls) []) s)
    as (prs & s1 & E & Hn); [discriminate|].
  rewrite E. now exists (mkBuffer (next_buf s1) (PptContent prs)), prs,
               (set_next_buf (S (next_buf s1)) s1).
Qed.

(** C8, where the code departs from it.  With python-pptx as it is, line
    147 raises before the loop is entered, so a deck request is answered
    with status 500 whether or not its images can be fetched: when every
    image fails, no deck without slides is returned.  Nothing was fetched
    and the state is as it was. *)
Theorem ppt_all_failed_is_500
        (u : URL) (rest : list URL) (title : option string) (other : bool)
        (s : state) :
  handle net default_layouts python_pptx_clear
         (Some (mkBody (Some (u :: rest)) title (Some (JStr "ppt")) other)) s
  = (Jsonify (ConversionFailed (AttributeError "_sldLayouts")) 500, s).
Proof.
  unfold handle, convert, convert_with. unfold_monad.
  cbn [dict_is_empty b_images b_title b_format b_other_keys py_lower].
  unfold_monad.
  change (PyStr.in_list (PyStr.lower "ppt") ["pdf"; "ppt"; "zip"]) with true.
  change ((PyStr.lower "ppt" =? "pdf")%string) with false.
  change ((PyStr.lower "ppt" =? "ppt")%string) with true. cbn [negb].
  rewrite create_ppt_eq. reflexivity.
Qed.

End PptProps.

(** ** Entry names of the archive *)

Lemma list_ascii_of_string_app (a b : string) :
  list_ascii_of_string (a ++ b)%string
  = list_ascii_of_string a ++ list_ascii_of_string b.
Proof.
  induction a as [|c a IH]; cbn; [reflexivity|]. now rewrite IH.
Qed.

Lemma string_app_inv_tail (a b c : string) :
  (a ++ c)%string = (b ++ c)%string -> a = b.
Proof.
  intros H. apply (f_equal list_ascii_of_string) in H.
  rewrite !list_ascii_of_string_app in H. apply app_inv_tail in H.
  apply (f_equal string_of_list_ascii) in H.
  now rewrite !string_of_list_ascii_of_string in H.
Qed.

Lemma uint_of_string_zeros (k : nat) (s : string) (d : uint) :
  NilEmpty.uint_of_string s = Some d ->
  NilEmpty.uint_of_string (PyStr.zeros k ++ s)%string = Some (Nat.iter k D0 d).
Proof.
  intros H. induction k as [|k IH]; cbn [PyStr.zeros Nat.iter]; [exact H|].
  cbn. rewrite IH. reflexivity.
Qed.

Lemma of_uint_leading_zeros (k : nat) (d : uint) :
  Nat.of_uint (Nat.iter k D0 d) = Nat.of_uint d.
Proof.
  induction k as [|k IH]; [reflexivity|]. cbn [Nat.iter]. exact IH.
Qed.

(** Reading back the digits of a padded number gives the number. *)
Lemma zfill_str_decode (w n : nat) :
  option_map Nat.of_uint (NilEmpty.uint_of_string (PyStr.zfill w (PyStr.str n)))
  = Some n.
Proof.
  unfold PyStr.zfill, PyStr.str.
  rewrite (uint_of_string_zeros _ _ _ (NilEmpty.usu (Nat.to_uint n))).
  cbn [option_map]. now rewrite of_uint_leading_zeros, DecimalNat.Unsigned.of_to.
Qed.

Lemma slide_filename_position (i j : nat) :
  slide_filename i = slide_filename j -> i = j.
Proof.
  unfold slide_filename. intros H.
  cbn [append] in H.
  repeat match type of H with String _ _ = String _ _ => injection H as H end.
  apply string_app_inv_tail in H.
  pose proof (zfill_str_decode 3 (i + 1)) as Hi.
  rewrite H, zfill_str_decode in Hi. injection Hi as Hi. lia.
Qed.

(** Two positions share an entry name only if they are the same position,
    also beyond the three digits of the padding. *)
Theorem slide_filename_inj (i j : nat) :
  slide_filename i = slide_filename j <-> i = j.
Proof.
  split; [apply slide_filename_position|now intros ->].
Qed.

(** ** The archive renderer *)

Section ZipProps.

Variable net : nat -> URL -> option image.

Lemma zip_step_eq (i : nat) (u : URL) (z : zipfile) (s : state) :
  zip_step net i u z s =
  (Ok tt,
   (z ++ match net (List.length (fetched s)) u with
         | Some im => zip_entry_of i im
         | None => []
         end,
    after_fetch u s)).
Proof.
  unfold zip_step, download_image, zip_entry_of. unfold_monad.
  destruct (net (List.length (fetched s)) u) as [im|];
    [|now rewrite app_nil_r].
  destruct (can_save (to_rgb im)); unfold_monad;
    [reflexivity|now rewrite app_nil_r].
Qed.

Lemma zip_loop_eq (images : list URL) :
  forall (i : nat) (z : zipfile) (s : state),
    zip_loop net i images z s
    = (Ok tt,
       (z ++ zip_entries net (List.length (fetched s)) i images,
        set_fetched (fetched s ++ images) s)).
Proof.
  induction images as [|u rest IH]; intros i z s.
  - cbn. unfold_monad. rewrite !app_nil_r. now destruct s.
  - cbn [zip_loop zip_entries]. unfold bind. rewrite zip_step_eq, IH.
    cbn. rewrite length_app, Nat.add_1_r, <- !app_assoc. reflexivity.
Qed.

Lemma create_zip_eq (images : list URL) (title : string) (s : state) :
  create_zip_from_images net images title tt s
  = (Ok (mkBuffer (next_buf s)
           (ZipContent (zip_entries net (List.length (fetched s)) 0 images))),
     (tt, set_fetched (fetched s ++ images) (set_next_buf (S (next_buf s)) s))).
Proof.
  unfold create_zip_from_images, BytesIO. unfold_monad.
  rewrite zip_loop_eq. reflexivity.
Qed.

(** The entries are those of the images fetched and encodable, each
    under the name of its position in the input. *)
Lemma In_zip_entries (images : list URL) :
  forall (k i : nat) (e : zip_entry),
    In e (zip_entries net k i images) <->
    exists j u im,
      nth_error images j = Some u /\ net (k + j)%nat u = Some im
      /\ can_save (to_rgb im) = true
      /\ e = mkEntry (slide_filename (i + j)) 95 (to_rgb im).
Proof.
  induction images as [|u rest IH]; intros k i e.
  - cbn. split; [tauto|]. intros ([|j] & u & im & H & _); discriminate.
  - cbn [zip_entries]. rewrite in_app_iff, IH. split.
    + intros [H | (j & u' & im & Hn & Hnet & Hw & He)].
      * destruct (net k u) as [im|] eqn:Hnet; [|destruct H].
        unfold zip_entry_of in H.
        destruct (can_save (to_rgb im)) eqn:Hw; [|destruct H].
        destruct H as [<-|[]].
        exists 0%nat, u, im. rewrite !Nat.add_0_r. auto.
      * exists (S j), u', im. rewrite !Nat.add_succ_r. auto.
    + intros ([|j] & u' & im & Hn & Hnet & Hw & He).
      * left. cbn in Hn. inversion Hn; subst u'.
        rewrite !Nat.add_0_r in *. rewrite Hnet. unfold zip_entry_of.
        rewrite Hw. now left.
      * right. exists j, u', im. rewrite !Nat.add_succ_r in *. auto.
Qed.

(** The entries of the archive: one for each image that was fetched and
    that [image.save] can write as JPEG once RGBA and LA are converted;
    the entry is encoded at quality 95 and named [slide_NNN.jpg] after the
    1-based position of its URL in the input, so an image left out still
    uses up its number.  Two URLs that both answer with such images give
    exactly [slide_001.jpg] and [slide_002.jpg]. *)
Theorem zip_entries_named_by_position
        (images : list URL) (title : string) (s : state) :
  exists z s',
    create_zip_from_images net images title tt s
    = (Ok (mkBuffer (next_buf s) (ZipContent z)), (tt, s'))
    /\ (forall e,
          In e z <->
          exists j u im,
            nth_error images j = Some u
            /\ net (List.length (fetched s) + j)%nat u = Some im
            /\ can_save (to_rgb im) = true
            /\ e = mkEntry (slide_filename j) 95 (to_rgb im))
    /\ (forall u1 u2 im1 im2,
          images = [u1; u2] ->
          net (List.length (fetched s)) u1 = Some im1 ->
          net (S (List.length (fetched s))) u2 = Some im2 ->
          can_save (to_rgb im1) = true ->
          can_save (to_rgb im2) = true ->
          z = [mkEntry "slide_001.jpg" 95 (to_rgb im1);
               mkEntry "slide_002.jpg" 95 (to_rgb im2)])
    /\ (forall u1 u2 im2,
          images = [u1; u2] ->
          net (List.length (fetched s)) u1 = None ->
          net (S (List.length (fetched s))) u2 = Some im2 ->
          can_save (to_rgb im2) = true ->
          z = [mkEntry "slide_002.jpg" 95 (to_rgb im2)])
    /\ slide_filename 9 = "slide_010.jpg"
    /\ slide_filename 99 = "slide_100.jpg".
Proof.
  eexists. eexists. rewrite create_zip_eq. split; [reflexivity|].
  split; [|split; [|split; [|split; reflexivity]]].
  - intros e. apply (In_zip_entries images _ 0%nat e).
  - intros u1 u2 im1 im2 -> H1 H2 W1 W2. cbn [zip_entries].
    rewrite H1, H2. unfold zip_entry_of. rewrite W1, W2. reflexivity.
  - intros u1 u2 im2 -> H1 H2 W2. cbn [zip_entries].
    rewrite H1, H2. unfold zip_entry_of. rewrite W2. reflexivity.
Qed.



End ZipProps.

(** C6, where the code departs from it: the conversion "to JPEG if
    needed" of lines 215-220 covers the modes RGBA and LA only.  A palette
    image (mode P) is fetched, is not converted, fails [image.save] and
    leaves no entry, where the claim has an entry for every image
    fetched. *)
Lemma zip_palette_image_no_entry : ~ zip_entry_per_fetched_image.
Proof.
  intros H.
  destruct (H (only_a MP) [a_png] "deck" fresh) as (z & s' & E & Hall).
  destruct (Hall 0%nat a_png (sample MP) eq_refl eq_refl) as (e & Hin & _).
  vm_compute in E. inversion E; subst. destruct Hin.
Qed.

Lemma zip_entries_named_by_position_witness :
  exists z s',
    create_zip_from_images (a_and_b MRGB) [a_png; b_png] "deck" tt fresh
    = (Ok (mkBuffer 0 (ZipContent z)), (tt, s'))
    /\ z = [mkEntry "slide_001.jpg" 95 (sample MRGB);
            mkEntry "slide_002.jpg" 95 (sample MRGB)].
Proof.
  destruct (zip_entries_named_by_position (a_and_b MRGB) [a_png; b_png]
              "deck" fresh) as (z & s' & E & _ & Hboth & _).
  exists z, s'. split; [exact E|].
  exact (Hboth a_png b_png (sample MRGB) (sample MRGB)
               eq_refl eq_refl eq_refl eq_refl eq_refl).
Defined.



(** ** The cleanup thread *)

Section SweeperProps.

Variable hz : Z.
Variable unlink_fails : nat -> bool.

Lemma item_eqb_eq (a b : item) : item_eqb a b = true -> a = b.
Proof.
  destruct a as [ta pa ba ca], b as [tb pb bb cb]. unfold item_eqb. cbn.
  intros H. apply andb_prop in H as [H Hc]. apply andb_prop in H as [H Hb].
  apply andb_prop in H as [Ht Hp].
  apply Z.eqb_eq in Hc.
  assert (ta = tb) by (destruct ta, tb; cbn in Ht; congruence).
  assert (forall x y, opt_nat_eqb x y = true -> x = y) as Hopt.
  { intros [x|] [y|]; cbn; intros E; try congruence.
    apply Nat.eqb_eq in E. congruence. }
  apply Hopt in Hp, Hb. congruence.
Qed.

Lemma item_eqb_refl (a : item) : item_eqb a a = true.
Proof.
  destruct a as [t p b c]. unfold item_eqb. cbn.
  rewrite Z.eqb_refl.
  assert (forall x, opt_nat_eqb x x = true) as Hopt
    by (intros [x|]; cbn; [apply Nat.eqb_refl|reflexivity]).
  rewrite !Hopt. now destruct t.
Qed.

Lemma list_remove_middle (x : item) (pre r : list item) :
  ~ In x pre -> list_remove x (pre ++ x :: r) = pre ++ r.
Proof.
  induction pre as [|y pre IH]; intros Hn; cbn.
  - now rewrite item_eqb_refl.
  - destruct (item_eqb y x) eqn:E.
    + apply item_eqb_eq in E. subst. exfalso. apply Hn. now left.
    + rewrite IH; [reflexivity|]. intros H. apply Hn. now right.
Qed.

(** Removing, one by one, the entries a predicate selects leaves the
    entries it does not select, in their order. *)
Lemma remove_selected (P : item -> bool) (q : list item) :
  forall pre,
    (forall y, In y pre -> P y = false) ->
    fold_left (fun q0 it => list_remove it q0) (filter P q) (pre ++ q)
    = pre ++ filter (fun it => negb (P it)) q.
Proof.
  induction q as [|x r IH]; intros pre Hpre; cbn; [reflexivity|].
  destruct (P x) eqn:Px; cbn.
  - rewrite list_remove_middle; [now apply IH|].
    intros Hin. apply Hpre in Hin. congruence.
  - replace (pre ++ x :: r) with ((pre ++ [x]) ++ r)
      by now rewrite <- app_assoc.
    rewrite IH.
    + now rewrite <- app_assoc.
    + intros y Hy. apply in_app_iff in Hy as [Hy | [<- | []]]; auto.
Qed.

Lemma path_exists_unlink_same (p : nat) (s : state) :
  path_exists p (unlink p s) = false.
Proof.
  unfold path_exists, unlink. cbn.
  induction (disk s) as [|e d IH]; cbn; [reflexivity|].
  destruct (Nat.eqb (fst e) p) eqn:E; cbn; [exact IH|now rewrite E].
Qed.

Lemma path_exists_unlink_mono (p q : nat) (s : state) :
  path_exists q s = false -> path_exists q (unlink p s) = false.
Proof.
  unfold path_exists, unlink. cbn.
  induction (disk s) as [|e d IH]; cbn; [reflexivity|].
  intros H. apply orb_false_iff in H as [H1 H2].
  destruct (Nat.eqb (fst e) p); cbn; [now apply IH|].
  rewrite H1. now apply IH.
Qed.

(** Releasing one entry, failures caught: it touches neither the queue
    nor the clock, brings back no file and reopens no buffer, and the
    entry's storage is released. *)
Lemma release_spec (it : item) (s : state) :
  exists s',
    try_except (release unlink_fails it) (fun _ => ret tt) tt s
    = (Ok tt, (tt, s'))
    /\ cleanup_queue s' = cleanup_queue s
    /\ now s' = now s
    /\ (forall q, path_exists q s = false -> path_exists q s' = false)
    /\ (forall b, In b (closed s) -> In b (closed s'))
    /\ released unlink_fails it s'.
Proof.
  unfold release, released. unfold_monad.
  destruct (i_type it).
  - destruct (i_path it) as [p|].
    + destruct (path_exists p s) eqn:Ex.
      * destruct (unlink_fails p) eqn:Uf.
        -- exists s. repeat split; auto. discriminate.
        -- exists (unlink p s). repeat split; auto.
           ++ intros q. apply path_exists_unlink_mono.
           ++ intros _. apply path_exists_unlink_same.
      * exists s. repeat split; auto.
    + exists s. repeat split; auto.
  - destruct (i_buffer it) as [b|].
    + exists (set_closed (closed s ++ [b]) s). repeat split; auto.
      * intros b' Hb. cbn. apply in_app_iff. now left.
      * cbn. apply in_app_iff. right. now left.
    + exists s. repeat split; auto.
  - exists s. repeat split; auto.
Qed.

Lemma released_mono (it : item) (s s' : state) :
  (forall q, path_exists q s = false -> path_exists q s' = false) ->
  (forall b, In b (closed s) -> In b (closed s')) ->
  released unlink_fails it s -> released unlink_fails it s'.
Proof.
  unfold released. intros Hp Hb.
  destruct (i_type it); auto.
  - destruct (i_path it); auto.
  - destruct (i_buffer it); auto.
Qed.

(** The first loop of a pass: it collects exactly the stale entries and
    releases each of them. *)
Lemma scan_spec (t : Z) (queue : list item) :
  forall (acc : list item) (s : state),
  exists s',
    scan hz unlink_fails t queue acc tt s
    = (Ok (acc ++ filter (stale hz t) queue), (tt, s'))
    /\ cleanup_queue s' = cleanup_queue s
    /\ now s' = now s
    /\ (forall q, path_exists q s = false -> path_exists q s' = false)
    /\ (forall b, In b (closed s) -> In b (closed s'))
    /\ (forall it, In it queue -> stale hz t it = true ->
                   released unlink_fails it s').
Proof.
  induction queue as [|x r IH]; intros acc s.
  - exists s. cbn. unfold_monad. rewrite app_nil_r.
    repeat split; auto. intros it [].
  - cbn [scan filter]. destruct (stale hz t x) eqn:Sx.
    + destruct (release_spec x s) as (s1 & E1 & Q1 & N1 & P1 & B1 & R1).
      destruct (IH (acc ++ [x]) s1) as (s' & E & Q & N & P & B & R).
      exists s'. unfold bind. rewrite E1, E, <- app_assoc.
      repeat split; auto; try congruence.
      intros it [<- | Hin] Hst; [|now apply R].
      now apply (released_mono _ s1).
    + destruct (IH acc s) as (s' & E & Q & N & P & B & R).
      exists s'. rewrite E. repeat split; auto.
      intros it [<- | Hin] Hst; [congruence|now apply R].
Qed.

(** One pass: the queue keeps exactly the entries that are not stale, and
    the storage of every stale entry is released. *)
Lemma sweep_spec (s : state) :
  cleanup_queue (sweep hz unlink_fails s)
  = filter (fun it => negb (stale hz (now s) it)) (cleanup_queue s)
  /\ now (sweep hz unlink_fails s) = now s
  /\ (forall it, In it (cleanup_queue s) -> stale hz (now s) it = true ->
                 released unlink_fails it (sweep hz unlink_fails s)).
Proof.
  unfold sweep.
  destruct (scan_spec (now s) (cleanup_queue s) [] s)
    as (s' & E & Q & N & _ & _ & R).
  rewrite E. cbn [app]. rewrite Q. split; [|split].
  - cbn. apply (remove_selected (stale hz (now s)) (cleanup_queue s) []).
    intros y [].
  - exact N.
  - intros it Hin Hst. specialize (R it Hin Hst).
    revert R. apply released_mono; auto.
Qed.

Lemma fold_act_now (tn : list activity) :
  forall s, now (fold_left (fun s0 a => act a s0) tn s) = now s + elapsed tn.
Proof.
  induction tn as [|[dt|t p b] tn IH]; intros s; cbn [fold_left elapsed].
  - lia.
  - rewrite IH. cbn. lia.
  - rewrite IH. reflexivity.
Qed.

Lemma run_turn_now (tn : list activity) (s : state) :
  now (run_turn hz unlink_fails tn s) = now s + elapsed tn.
Proof.
  unfold run_turn. rewrite fold_act_now.
  now destruct (sweep_spec s) as (_ & -> & _).
Qed.

Lemma forward_elapsed (tn : list activity) : forward tn -> 0 <= elapsed tn.
Proof.
  induction 1 as [|[dt|t p b] tn Ha _ IH]; cbn; lia.
Qed.

Lemma elapsed_app (a b : list activity) :
  elapsed (a ++ b) = elapsed a + elapsed b.
Proof.
  induction a as [|[dt|t p buf] a IH]; cbn; lia.
Qed.

(** The activities between two passes take nothing off the queue, delete
    no file and reopen no buffer. *)
Lemma fold_act_keeps (tn : list activity) :
  forall s,
    (forall it, In it (cleanup_queue s) ->
                In it (cleanup_queue (fold_left (fun s0 a => act a s0) tn s)))
    /\ disk (fold_left (fun s0 a => act a s0) tn s) = disk s
    /\ closed (fold_left (fun s0 a => act a s0) tn s) = closed s.
Proof.
  induction tn as [|a tn IH]; intros s; cbn [fold_left]; [auto|].
  destruct (IH (act a s)) as (Hq & Hd & Hc). split; [|split].
  - intros it Hin. apply Hq. destruct a; cbn; [exact Hin|].
    apply in_app_iff. now left.
  - rewrite Hd. now destruct a.
  - rewrite Hc. now destruct a.
Qed.

Lemma cleanup_resources_app (ta tb : list (list activity)) :
  forall s,
    cleanup_resources hz unlink_fails (ta ++ tb) s
    = cleanup_resources hz unlink_fails tb
        (cleanup_resources hz unlink_fails ta s).
Proof.
  induction ta as [|tn ta IH]; intros s; cbn; [reflexivity|apply IH].
Qed.

(** An entry that is on the queue when a pass begins stays there through
    the turns that follow, up to the first pass at which it is more than
    300 seconds old; and that pass begins no later than one turn after the
    entry's 300 seconds. *)
Lemma first_stale_pass (D T : Z) (it : item) (turns : list (list activity)) :
  i_created it = T ->
  forall s,
    Forall (turn_ok hz D) turns ->
    In it (cleanup_queue s) ->
    now s <= T + 300 * hz + 60 * hz + D ->
    T + 300 * hz < now (cleanup_resources hz unlink_fails turns s) ->
    exists ta tb,
      turns = ta ++ tb
      /\ T + 300 * hz < now (cleanup_resources hz unlink_fails ta s)
                      <= T + 300 * hz + 60 * hz + D
      /\ In it (cleanup_queue (cleanup_resources hz unlink_fails ta s)).
Proof.
  intros Hcreated. induction turns as [|tn rest IH]; intros s Hok Hin Hbound Hlong.
  - exists [], []. cbn in *. auto.
  - destruct (Z_lt_le_dec (T + 300 * hz) (now s)) as [Hst | Hfresh].
    + exists [], (tn :: rest). cbn. auto.
    + inversion Hok as [|x l [Hfw [Hlo Hhi]] Hrest]; subst x l.
      assert (Hin' : In it (cleanup_queue (run_turn hz unlink_fails tn s))).
      { unfold run_turn. apply fold_act_keeps.
        destruct (sweep_spec s) as (-> & _). apply filter_In. split; [exact Hin|].
        unfold stale. rewrite Hcreated, Z.gtb_ltb.
        apply negb_true_iff, Z.ltb_ge. lia. }
      destruct (IH (run_turn hz unlink_fails tn s) Hrest Hin')
        as (ta & tb & Hsplit & Htime & Hq).
      * rewrite run_turn_now. lia.
      * exact Hlong.
      * exists (tn :: ta), tb. cbn. rewrite Hsplit. auto.
Qed.

(** C9, amended: a turn of the thread lasts the 60 seconds of its sleep
    plus the time of the pass, at most [D] say.  An entry registered at
    time [T] stays on the queue until the first pass that begins more than
    300 seconds after [T]; that pass begins no later than [T] plus 300
    seconds plus 60 seconds plus [D]; it takes the entry off the queue and
    releases its storage, and takes it off even when [os.unlink] fails. *)
Theorem sweeper_reclaims_in_time
        (D : Z) (turns1 : list (list activity)) (pre : list activity)
        (t : resource_type) (path buf : option nat) (post : list activity)
        (turns2 : list (list activity)) (s0 : state) :
  0 < hz -> 0 <= D ->
  Forall (turn_ok hz D)
         (turns1 ++ [pre ++ Register t path buf :: post] ++ turns2) ->
  let T := now (fold_left (fun s a => act a s) pre
                  (sweep hz unlink_fails
                     (cleanup_resources hz unlink_fails turns1 s0))) in
  let it := mkItem t path buf T in
  T + 300 * hz
  < now (cleanup_resources hz unlink_fails
           (turns1 ++ [pre ++ Register t path buf :: post] ++ turns2) s0) ->
  exists ta tb,
    turns2 = ta ++ tb
    /\ let s_k := cleanup_resources hz unlink_fails
                    (turns1 ++ [pre ++ Register t path buf :: post] ++ ta) s0 in
       T + 300 * hz < now s_k <= T + 300 * hz + 60 * hz + D
       /\ In it (cleanup_queue s_k)
       /\ ~ In it (cleanup_queue (sweep hz unlink_fails s_k))
       /\ released unlink_fails it (sweep hz unlink_fails s_k).
Proof.
  intros Hhz HD Hok T it Hlong.
  apply Forall_app in Hok as [_ Hok]. apply Forall_app in Hok as [Hreg Hok2].
  inversion Hreg as [|x l [Hfw [Hlo Hhi]] _]; subst x l.
  set (s1 := cleanup_resources hz unlink_fails turns1 s0) in *.
  set (sr := fold_left (fun s a => act a s) pre (sweep hz unlink_fails s1)) in *.
  set (s2 := run_turn hz unlink_fails (pre ++ Register t path buf :: post) s1).
  assert (Hs2 : forall ta,
             cleanup_resources hz unlink_fails
               (turns1 ++ [pre ++ Register t path buf :: post] ++ ta) s0
             = cleanup_resources hz unlink_fails ta s2).
  { intros ta. rewrite cleanup_resources_app. reflexivity. }
  assert (HT : now sr = T) by reflexivity.
  assert (Hfold : s2 = fold_left (fun s a => act a s) post
                         (act (Register t path buf) sr)).
  { unfold s2, run_turn. rewrite fold_left_app. reflexivity. }
  assert (Hin : In it (cleanup_queue s2)).
  { rewrite Hfold. apply fold_act_keeps. cbn. apply in_app_iff. right.
    left. reflexivity. }
  assert (Hpre : 0 <= elapsed pre).
  { apply forward_elapsed. unfold forward in *.
    apply Forall_app in Hfw as [Hfw _]. exact Hfw. }
  assert (Hnow2 : now s2 <= T + 300 * hz + 60 * hz + D).
  { unfold s2. rewrite run_turn_now. rewrite elapsed_app in Hhi.
    assert (now sr = now s1 + elapsed pre).
    { unfold sr. rewrite fold_act_now.
      now destruct (sweep_spec s1) as (_ & -> & _). }
    rewrite elapsed_app. lia. }
  rewrite Hs2 in Hlong.
  destruct (first_stale_pass D T it turns2 eq_refl s2 Hok2 Hin Hnow2 Hlong)
    as (ta & tb & Hsplit & Htime & Hq).
  exists ta, tb. split; [exact Hsplit|]. cbv zeta. rewrite Hs2.
  set (sk := cleanup_resources hz unlink_fails ta s2) in *.
  assert (Hst : stale hz (now sk) it = true).
  { unfold stale. cbn [i_created it]. rewrite Z.gtb_ltb. apply Z.ltb_lt. lia. }
  destruct (sweep_spec sk) as (Hqueue & _ & Hrel).
  split; [exact Htime|]. split; [exact Hq|]. split; [|now apply Hrel].
  rewrite Hqueue. intros Hf. apply filter_In in Hf as [_ Hf].
  rewrite Hst in Hf. discriminate.
Qed.

End SweeperProps.

(** ** The statements on samples *)

Lemma pdf_first_image_unreachable_is_500_witness :
  fst (handle (only_a MRGB) template_layouts (fun _ => Some [])
         (Some (mkBody (Some [b_png; a_png]) None (Some (JStr "PDF")) false))
         fresh)
  = Jsonify (ConversionFailed (FetchError b_png)) 500.
Proof.
  exact (pdf_first_image_unreachable_is_500 (only_a MRGB) template_layouts
           (fun _ => Some []) b_png [a_png] None "PDF" false fresh
           eq_refl eq_refl).
Defined.

Lemma convert_format_case_insensitive_witness :
  handle (only_a MRGB) template_layouts (fun _ => Some [])
         (Some (mkBody (Some [a_png]) None (Some (JStr "Zip")) false)) fresh
  = handle (only_a MRGB) template_layouts (fun _ => Some [])
           (Some (mkBody (Some [a_png]) None (Some (JStr (PyStr.lower "Zip")))
                    false)) fresh
  /\ status_of
       (fst (handle (only_a MRGB) template_layouts (fun _ => Some [])
               (Some (mkBody (Some [a_png]) None (Some (JStr "Zip")) false))
               fresh)) <> 400.
Proof.
  exact (convert_format_case_insensitive (only_a MRGB) template_layouts
           (fun _ => Some []) a_png [] None "Zip" false fresh eq_refl).
Defined.

(** C9 on a sample, a pass taking one second: a buffer registered at
    second 5 is still queued when the pass of second 366 begins, 361
    seconds later, and that pass closes it. *)
Lemma sweeper_reclaims_in_time_witness :
  exists ta tb,
    [[Elapse 61]; [Elapse 61]; [Elapse 61]; [Elapse 61]; [Elapse 61];
     [Elapse 61]] = ta ++ tb
    /\ let s_k := cleanup_resources 1 (fun _ => false)
                    ([] ++ [[Elapse 5] ++ Register RBuffer None (Some 0%nat)
                                          :: [Elapse 56]] ++ ta) fresh in
       5 + 300 * 1 < now s_k <= 5 + 300 * 1 + 60 * 1 + 1
       /\ In (mkItem RBuffer None (Some 0%nat) 5) (cleanup_queue s_k)
       /\ ~ In (mkItem RBuffer None (Some 0%nat) 5)
              (cleanup_queue (sweep 1 (fun _ => false) s_k))
       /\ released (fun _ => false) (mkItem RBuffer None (Some 0%nat) 5)
                   (sweep 1 (fun _ => false) s_k).
Proof.
  apply (sweeper_reclaims_in_time 1 (fun _ => false) 1 [] [Elapse 5]
           RBuffer None (Some 0%nat) [Elapse 56]
           [[Elapse 61]; [Elapse 61]; [Elapse 61]; [Elapse 61]; [Elapse 61];
            [Elapse 61]] fresh).
  - lia.
  - lia.
  - repeat constructor; cbn; lia.
  - vm_compute. reflexivity.
Defined.

(** C9 as worded fails as soon as a pass takes time: with turns of 61
    seconds, a buffer registered at second 5 is exactly 300 seconds old at
    the pass of second 305, which keeps it, and it is still queued at
    second 365. *)
Lemma sweeper_late_by_pass_time : ~ reclaimed_within_one_interval.
Proof.
  intros H.
  apply (H 1 (fun _ => false) 1 [] [Elapse 5] RBuffer None (Some 0%nat)
           [Elapse 56]
           [[Elapse 61]; [Elapse 61]; [Elapse 61]; [Elapse 61]]
           [Elapse 60] fresh).
  - lia.
  - lia.
  - repeat constructor; cbn; lia.
  - repeat constructor. lia.
  - vm_compute. discriminate.
  - vm_compute. left. reflexivity.
Qed.

(** A deck request for one reachable image, the layouts removed: the file
    sent has no slide. *)
Example ppt_one_image_no_slide :
  fst (handle (only_a MRGB) template_layouts (fun _ => Some [])
         (Some (mkBody (Some [a_png]) (Some "deck") (Some (JStr "ppt")) false))
         fresh)
  = SendFile (mkBuffer 0 (PptContent (mkPresentation [] [])))
             "application/vnd.openxmlformats-officedocument.presentationml.presentation"
             "deck.pptx".
Proof. vm_compute. reflexivity. Qed.

(** The same request when line 147 raises: status 500. *)
Example ppt_attribute_error_is_500 :
  fst (handle (only_a MRGB) template_layouts (fun _ => None)
         (Some (mkBody (Some [a_png]) (Some "deck") (Some (JStr "ppt")) false))
         fresh)
  = Jsonify (ConversionFailed (AttributeError "_sldLayouts")) 500.
Proof. vm_compute. reflexivity. Qed.

(** An empty image list with a [null] format: status 500, not 400. *)
Example empty_images_null_format_is_500 :
  fst (handle offline template_layouts (fun _ => Some [])
         (Some (mkBody (Some []) None (Some JNull) false)) fresh)
  = Jsonify (ConversionFailed (AttributeError "lower")) 500.
Proof. vm_compute. reflexivity. Qed.

(** One pass at time 400 over a queue holding a file registered at 10 and
    a buffer registered at 200: the file goes, the buffer stays. *)
Example sweep_sample :
  let s := mkState [] [mkItem RFile (Some 0%nat) None 10;
                       mkItem RBuffer None (Some 0%nat) 200]
                   400 1 [(0%nat, Some (sample MRGB))] 1 [] in
  cleanup_queue (sweep 1 (fun _ => false) s)
  = [mkItem RBuffer None (Some 0%nat) 200]
  /\ disk (sweep 1 (fun _ => false) s) = [].
Proof. vm_compute. split; reflexivity. Qed.

(** Two reachable RGB images as a PDF: two pages of the first image's
    size, one page break, between the two images. *)
Example pdf_two_images :
  exists id s',
    create_pdf_from_images (a_and_b MRGB) [a_png; b_png] "deck" tt fresh
    = (Ok (mkBuffer id (PdfContent
             (mkCanvas (640, 480) []
                [mkPage (640, 480) [(0%nat, 0, 0, 640, 480)];
                 mkPage (640, 480) [(1%nat, 0, 0, 640, 480)]]
                [CallDrawImage 0; CallShowPage; CallDrawImage 1]))),
       (tt, s'))
    /\ fetched s' = [a_png; a_png; b_png].
Proof. eexists. eexists. vm_compute. split; reflexivity. Qed.

(** A format that is a string but not one of the three names: status 400,
    nothing fetched. *)
Example unknown_format_is_400 :
  handle (a_and_b MRGB) template_layouts (fun _ => Some [])
         (Some (mkBody (Some [a_png]) None (Some (JStr "GIF")) false)) fresh
  = (Jsonify (Text "Invalid format. Must be pdf, ppt, or zip") 400, fresh).
Proof. vm_compute. reflexivity. Qed.

(** A ZIP request whose first image cannot be fetched: the second keeps
    its number. *)
Example zip_skipped_image_keeps_gap :
  exists s',
    create_zip_from_images (only_a MRGBA) [b_png; a_png] "deck" tt fresh
    = (Ok (mkBuffer 0 (ZipContent
             [mkEntry "slide_002.jpg" 95
                (mkImage MRGB 640 480 (PasteOnWhite (Decoded 0) true) true)])),
       (tt, s')).
Proof. eexists. vm_compute. reflexivity. Qed.

(** * Further properties of the code *)

Section ZipMore.

Variable net : nat -> URL -> option image.

(** The names of the entries of an archive are pairwise distinct. *)
Theorem zip_entry_names_distinct (images : list URL) (title : string)
        (s : state) :
  exists z s',
    create_zip_from_images net images title tt s
    = (Ok (mkBuffer (next_buf s) (ZipContent z)), (tt, s'))
    /\ NoDup (map ze_name z).
Proof.
  eexists. eexists. rewrite create_zip_eq. split; [reflexivity|].
  generalize (List.length (fetched s)) as k. generalize 0%nat as i.
  induction images as [|u rest IH]; intros i k; cbn [zip_entries].
  - constructor.
  - rewrite map_app.
    assert (Hrest : forall e, In e (zip_entries net (S k) (S i) rest) ->
                              ze_name e <> slide_filename i).
    { intros e He Hname. apply In_zip_entries in He.
      destruct He as (j & u' & im & _ & _ & _ & Heq). rewrite Heq in Hname.
      cbn [ze_name] in Hname. apply slide_filename_position in Hname. lia. }
    destruct (net k u) as [im|]; [|apply IH].
    unfold zip_entry_of. destruct (can_save (to_rgb im));
      [|apply IH].
    cbn. constructor; [|apply IH].
    intros Hin. apply in_map_iff in Hin as (e & Hname & He).
    exact (Hrest e He Hname).
Qed.

(** The archive renderer always returns: it asks for every URL once, in
    the order given, writes at most one entry per URL, creates no
    temporary file and registers nothing for cleanup. *)
Theorem zip_touches_no_file (images : list URL) (title : string) (s : state) :
  exists z s',
    create_zip_from_images net images title tt s
    = (Ok (mkBuffer (next_buf s) (ZipContent z)), (tt, s'))
    /\ fetched s' = fetched s ++ images
    /\ (List.length z <= List.length images)%nat
    /\ disk s' = disk s
    /\ next_tmp s' = next_tmp s
    /\ cleanup_queue s' = cleanup_queue s
    /\ closed s' = closed s.
Proof.
  eexists. eexists. rewrite create_zip_eq. split; [reflexivity|].
  cbn. repeat split; try reflexivity.
  generalize (List.length (fetched s)) as k. generalize 0%nat as i.
  induction images as [|u rest IH]; intros i k; cbn [zip_entries List.length];
    [lia|].
  rewrite length_app. specialize (IH (S i) (S k)).
  destruct (net k u) as [im|]; [|cbn; lia].
  unfold zip_entry_of. destruct (can_save (to_rgb im)); cbn; lia.
Qed.

End ZipMore.

(** ** Pages and temporary files of the PDF renderer *)

Section PdfMore.

Variable net : nat -> URL -> option image.

(** The pages the loop adds: one for each image fetched and encodable,
    each showing that image alone over the whole page. *)
Lemma pdf_loop_pages (w h : Z) (len : nat) (images : list URL) :
  forall (i : nat) (c : canvas) (s : state),
    (i + List.length images = len)%nat ->
    code c = [] -> pagesize c = (w, h) ->
    exists c' s' new,
      pdf_loop net w h len i images c s = (Ok tt, (c', s'))
      /\ pages (save c') = pages c ++ new
      /\ List.length new = encodable_count net (List.length (fetched s)) images
      /\ Forall (full_page w h) new.
Proof.
  induction images as [|u rest IH]; intros i c s Hlen Hcode Hsize.
  - exists c, s, []. cbn. unfold_monad. unfold save. rewrite Hcode, app_nil_r.
    repeat split; auto.
  - cbn [pdf_loop encodable_count]. unfold bind. rewrite pdf_step_eq.
    assert (L : forall s1, fetched s1 = fetched s ++ [u] ->
                List.length (fetched s1) = S (List.length (fetched s)))
      by (intros s1 ->; rewrite length_app; cbn; lia).
    assert (Hlen' : (S i + List.length rest = len)%nat) by (cbn in Hlen; lia).
    destruct (net (List.length (fetched s)) u) as [im|].
    2:{ destruct (IH (S i) c (after_fetch u s) Hlen' Hcode Hsize)
          as (c' & s' & new & E & Hp & Hn & Hf).
        exists c', s', new. rewrite E, Hn, (L (after_fetch u s) eq_refl). auto. }
    destruct (can_save im).
    2:{ destruct (IH (S i) c (after_tempfile u s) Hlen' Hcode Hsize)
          as (c' & s' & new & E & Hp & Hn & Hf).
        exists c', s', new. rewrite E, Hn, (L (after_tempfile u s) eq_refl).
        auto. }
    set (pg := mkPage (w, h) [(next_tmp s, 0, 0, w, h)]).
    assert (Hpg : full_page w h pg) by (split; [reflexivity|now eexists]).
    destruct rest as [|u2 rest2].
    + exists (painted w h len i (next_tmp s) c), (after_save u im s), [pg].
      cbn [pdf_loop]. unfold_monad. split; [reflexivity|].
      assert (Hlast : Nat.ltb i (len - 1) = false)
        by (cbn in Hlen; apply Nat.ltb_ge; lia).
      unfold painted. rewrite Hlast. unfold save, drawImage. cbn.
      rewrite Hcode, Hsize. cbn. repeat split; auto.
    + assert (Hmid : Nat.ltb i (len - 1) = true)
        by (cbn in Hlen; apply Nat.ltb_lt; lia).
      destruct (IH (S i) (painted w h len i (next_tmp s) c) (after_save u im s)
                   Hlen')
        as (c' & s' & new & E & Hp & Hn & Hf).
      { unfold painted. now rewrite Hmid. }
      { now rewrite painted_pagesize. }
      exists c', s', (pg :: new). rewrite E. split; [reflexivity|].
      split; [|split].
      * rewrite Hp. unfold painted. rewrite Hmid. cbn.
        rewrite Hcode, Hsize, <- app_assoc. reflexivity.
      * cbn [List.length]. rewrite Hn, (L (after_save u im s) eq_refl). lia.
      * now constructor.
Qed.

(** What the loop leaves in the process state: a temporary file for every
    image fetched, a queue entry only for those that were saved. *)
Lemma pdf_loop_state (w h : Z) (len : nat) (images : list URL) :
  forall (i : nat) (c : canvas) (s : state),
  exists c' s' q',
    pdf_loop net w h len i images c s = (Ok tt, (c', s'))
    /\ cleanup_queue s' = cleanup_queue s ++ q'
    /\ List.length q' = encodable_count net (List.length (fetched s)) images
    /\ Forall (file_entry (next_tmp s) (next_tmp s') (now s)) q'
    /\ next_tmp s'
       = (next_tmp s + fetched_count net (List.length (fetched s)) images)%nat
    /\ List.length (disk s')
       = (List.length (disk s)
          + fetched_count net (List.length (fetched s)) images)%nat
    /\ now s' = now s /\ closed s' = closed s.
Proof.
  induction images as [|u rest IH]; intros i c s.
  - exists c, s, []. cbn. unfold_monad. rewrite app_nil_r, !Nat.add_0_r.
    repeat split; auto.
  - cbn [pdf_loop encodable_count fetched_count]. unfold bind.
    rewrite pdf_step_eq.
    assert (L : forall s1, fetched s1 = fetched s ++ [u] ->
                List.length (fetched s1) = S (List.length (fetched s)))
      by (intros s1 ->; rewrite length_app; cbn; lia).
    assert (Hweak : forall lo lo' hi t q,
               (lo <= lo')%nat -> Forall (file_entry lo' hi t) q ->
               Forall (file_entry lo hi t) q).
    { intros lo lo' hi t q Hle. apply Forall_impl.
      intros it (H1 & H2 & H3 & p & H4 & H5). repeat split; auto.
      exists p. split; [exact H4|lia]. }
    destruct (net (List.length (fetched s)) u) as [im|].
    2:{ destruct (IH (S i) c (after_fetch u s))
          as (c' & s' & q' & E & Hq & Hn & Hf & Ht & Hd & Hnow & Hcl).
        exists c', s', q'. rewrite E. rewrite (L (after_fetch u s) eq_refl) in *.
        cbn in *. repeat split; auto. }
    destruct (can_save im).
    + destruct (IH (S i) (painted w h len i (next_tmp s) c) (after_save u im s))
        as (c' & s' & q' & E & Hq & Hn & Hf & Ht & Hd & Hnow & Hcl).
      exists c', s', (mkItem RFile (Some (next_tmp s)) None (now s) :: q').
      rewrite E. rewrite (L (after_save u im s) eq_refl) in *.
      cbn in Hq, Hf, Ht, Hd, Hnow, Hcl.
      unfold write_file in Hd. rewrite length_map, length_app in Hd.
      cbn in Hd. repeat split; auto.
      * rewrite Hq, <- app_assoc. reflexivity.
      * cbn. lia.
      * constructor.
        -- repeat split; auto. exists (next_tmp s). split; [reflexivity|lia].
        -- apply (Hweak _ (S (next_tmp s))); [lia|exact Hf].
      * lia.
      * lia.
    + destruct (IH (S i) c (after_tempfile u s))
        as (c' & s' & q' & E & Hq & Hn & Hf & Ht & Hd & Hnow & Hcl).
      exists c', s', q'. rewrite E. rewrite (L (after_tempfile u s) eq_refl) in *.
      cbn in Hq, Hf, Ht, Hd, Hnow, Hcl. rewrite length_app in Hd. cbn in Hd.
      repeat split; auto.
      * apply (Hweak _ (S (next_tmp s))); [lia|exact Hf].
      * lia.
      * lia.
Qed.

(** The document has one page for each image that the loop fetches and
    that [image.save] can write as JPEG, and every page shows one image
    drawn over the whole page, whose size is the first image's. *)
Theorem pdf_document_pages (u : URL) (rest : list URL) (title : string)
        (s : state) (im : image) :
  net (List.length (fetched s)) u = Some im ->
  exists c s',
    create_pdf_from_images net (u :: rest) title tt s
    = (Ok (mkBuffer (next_buf s) (PdfContent c)), (tt, s'))
    /\ List.length (pages c)
       = encodable_count net (S (List.length (fetched s))) (u :: rest)
    /\ Forall (full_page (im_width im) (im_height im)) (pages c).
Proof.
  intros Hnet. rewrite (create_pdf_eq _ _ _ _ _ _ Hnet).
  destruct (pdf_loop_pages (im_width im) (im_height im)
              (S (List.length rest)) (u :: rest) 0%nat (Canvas (size im))
              (after_fetch u (set_next_buf (S (next_buf s)) s))
              eq_refl eq_refl eq_refl)
    as (c' & s' & new & E & Hp & Hn & Hf).
  exists (save c'), s'. rewrite E. split; [reflexivity|].
  rewrite Hp. change (pages (Canvas (size im))) with (@nil page).
  rewrite app_nil_l. split; [|exact Hf].
  rewrite Hn. cbn [after_fetch fetched set_fetched set_next_buf].
  rewrite length_app. cbn [List.length]. now rewrite Nat.add_1_r.
Qed.

(** The renderer downloads the first image twice, once for the page size
    and once in the loop.  It creates a temporary file for every image the
    loop fetches, but registers for cleanup only those it could save as
    JPEG; the entries are appended to the queue, stamped with the current
    time.  It closes no buffer. *)
Theorem pdf_temp_files (u : URL) (rest : list URL) (title : string)
        (s : state) (im : image) :
  net (List.length (fetched s)) u = Some im ->
  exists b s' q',
    create_pdf_from_images net (u :: rest) title tt s = (Ok b, (tt, s'))
    /\ fetched s' = fetched s ++ u :: u :: rest
    /\ cleanup_queue s' = cleanup_queue s ++ q'
    /\ List.length q'
       = encodable_count net (S (List.length (fetched s))) (u :: rest)
    /\ Forall (file_entry (next_tmp s) (next_tmp s') (now s)) q'
    /\ List.length (disk s')
       = (List.length (disk s)
          + fetched_count net (S (List.length (fetched s))) (u :: rest))%nat
    /\ closed s' = closed s.
Proof.
  intros Hnet. rewrite (create_pdf_eq _ _ _ _ _ _ Hnet).
  set (s1 := after_fetch u (set_next_buf (S (next_buf s)) s)).
  destruct (pdf_loop_ok net (im_width im) (im_height im)
              (S (List.length rest)) (u :: rest) 0%nat (Canvas (size im)) s1)
    as (c0 & s0 & E0 & _ & _ & Hfetched & _).
  destruct (pdf_loop_state (im_width im) (im_height im)
              (S (List.length rest)) (u :: rest) 0%nat (Canvas (size im)) s1)
    as (c' & s' & q' & E & Hq & Hn & Hf & _ & Hd & _ & Hcl).
  rewrite E in E0. inversion E0; subst c0 s0.
  assert (L : List.length (fetched s1) = S (List.length (fetched s)))
    by (cbn; rewrite length_app; cbn; lia).
  rewrite L in *. exists (mkBuffer (next_buf s) (PdfContent (save c'))), s', q'.
  rewrite E. split; [reflexivity|]. cbn in Hfetched, Hq, Hf, Hd, Hcl.
  repeat split; auto.
  rewrite Hfetched, <- app_assoc. reflexivity.
Qed.

Lemma create_pdf_raise_eq (images : list URL) (title : string) (s : state) :
  match images with
  | [] => True
  | u :: _ => net (List.length (fetched s)) u = None
  end ->
  create_pdf_from_images net images title tt s
  = (Raise (match images with [] => IndexError | u :: _ => FetchError u end),
     (tt, set_fetched (fetched s ++ firstn 1 images)
            (set_next_buf (S (next_buf s)) s))).
Proof.
  intros H. unfold create_pdf_from_images, BytesIO, download_image.
  unfold_monad. destruct images as [|u rest].
  - cbn. rewrite app_nil_r. reflexivity.
  - cbn [fetched set_next_buf]. rewrite H. reflexivity.
Qed.

(** Called on an empty list the renderer raises [IndexError] before any
    download; and when the first download fails it gives up at once: one
    request was made, no file was created, nothing was registered. *)
Theorem pdf_gives_up_early (images : list URL) (title : string) (s : state) :
  match images with
  | [] => True
  | u :: _ => net (List.length (fetched s)) u = None
  end ->
  exists e s',
    create_pdf_from_images net images title tt s = (Raise e, (tt, s'))
    /\ e = match images with [] => IndexError | u :: _ => FetchError u end
    /\ fetched s' = fetched s ++ firstn 1 images
    /\ disk s' = disk s /\ next_tmp s' = next_tmp s
    /\ cleanup_queue s' = cleanup_queue s /\ closed s' = closed s.
Proof.
  intros H. rewrite (create_pdf_raise_eq _ _ _ H).
  eexists. eexists. split; [reflexivity|]. cbn. auto 10.
Qed.

Lemma draw_count_app (l1 l2 : list canvas_call) :
  draw_count (l1 ++ l2) = (draw_count l1 + draw_count l2)%nat.
Proof.
  induction l1 as [|[p|] l1 IH]; cbn; [reflexivity| |exact IH].
  now rewrite IH.
Qed.

(** The canvas is asked to draw exactly the images fetched and saved. *)
Lemma pdf_loop_draws (w h : Z) (len : nat) (images : list URL) :
  forall (i : nat) (c c' : canvas) (s s' : state),
    pdf_loop net w h len i images c s = (Ok tt, (c', s')) ->
    draw_count (calls c')
    = (draw_count (calls c)
       + encodable_count net (List.length (fetched s)) images)%nat.
Proof.
  induction images as [|u rest IH]; intros i c c' s s'.
  - cbn. unfold_monad. intros E. inversion E; subst. lia.
  - cbn [pdf_loop encodable_count]. unfold bind. rewrite pdf_step_eq.
    assert (L : forall s1, fetched s1 = fetched s ++ [u] ->
                List.length (fetched s1) = S (List.length (fetched s)))
      by (intros s1 ->; rewrite length_app; cbn; lia).
    destruct (net (List.length (fetched s)) u) as [im|].
    2:{ intros E. apply IH in E. rewrite E, (L (after_fetch u s) eq_refl). lia. }
    destruct (can_save im).
    2:{ intros E. apply IH in E.
        rewrite E, (L (after_tempfile u s) eq_refl). lia. }
    intros E. apply IH in E. rewrite E, (L (after_save u im s) eq_refl).
    unfold painted. destruct (Nat.ltb i (len - 1)); cbn;
      rewrite ?draw_count_app; cbn; rewrite ?draw_count_app; cbn; lia.
Qed.

(** Page breaks in the call log.  Started on a log in which every image is
    followed by a break, the loop ends on such a log when the last URL of
    the list is not painted; when it is painted, the log ends with that
    image, with no break after it, and every image before has its break. *)
Lemma pdf_loop_last_break (w h : Z) (len : nat) (images : list URL) :
  forall (i : nat) (c c' : canvas) (s s' : state) front ulast,
    (i + List.length images = len)%nat ->
    broken_log (calls c) ->
    pdf_loop net w h len i images c s = (Ok tt, (c', s')) ->
    images = front ++ [ulast] ->
    match net (List.length (fetched s) + List.length front) ulast with
    | Some im =>
        if can_save im
        then exists l p, calls c' = l ++ [CallDrawImage p] /\ broken_log l
        else broken_log (calls c')
    | None => broken_log (calls c')
    end.
Proof.
  induction images as [|u rest IH]; intros i c c' s s' front ulast Hlen Hlog.
  - intros _ Hsplit. now destruct front.
  - cbn [pdf_loop]. unfold bind. rewrite pdf_step_eq. intros E Hsplit.
    assert (L : forall s1, fetched s1 = fetched s ++ [u] ->
                List.length (fetched s1) = S (List.length (fetched s)))
      by (intros s1 ->; rewrite length_app; cbn; lia).
    destruct rest as [|u2 rest2].
    + (* the last URL *)
      assert (front = [] /\ ulast = u) as [-> ->].
      { destruct front as [|x [|y front]]; inversion Hsplit; auto;
          now destruct front. }
      cbn [List.length]. rewrite Nat.add_0_r.
      assert (Hlast : Nat.ltb i (len - 1) = false)
        by (cbn in Hlen; apply Nat.ltb_ge; lia).
      destruct (net (List.length (fetched s)) u) as [im|].
      2:{ cbn in E. unfold_monad. inversion E; subst. exact Hlog. }
      destruct (can_save im).
      2:{ cbn in E. unfold_monad. inversion E; subst. exact Hlog. }
      cbn in E. unfold_monad. inversion E as [[Hc Hs]].
      exists (calls c), (next_tmp s). unfold painted. rewrite Hlast.
      split; [reflexivity|exact Hlog].
    + (* not the last URL *)
      destruct front as [|x front]; [inversion Hsplit; now destruct rest2|].
      inversion Hsplit; subst x.
      assert (Hlen' : (S i + List.length (u2 :: rest2) = len)%nat)
        by (cbn in Hlen |- *; lia).
      assert (Hidx : forall s1, fetched s1 = fetched s ++ [u] ->
                 (List.length (fetched s1) + List.length front
                  = List.length (fetched s) + List.length (u :: front))%nat)
        by (intros s1 Hs1; rewrite (L s1 Hs1); cbn; lia).
      assert (Hmid : Nat.ltb i (len - 1) = true)
        by (cbn in Hlen; apply Nat.ltb_lt; lia).
      destruct (net (List.length (fetched s)) u) as [im|].
      2:{ rewrite <- (Hidx (after_fetch u s) eq_refl).
          now apply (IH (S i) c c' _ s' front ulast Hlen' Hlog E). }
      destruct (can_save im).
      2:{ rewrite <- (Hidx (after_tempfile u s) eq_refl).
          now apply (IH (S i) c c' _ s' front ulast Hlen' Hlog E). }
      rewrite <- (Hidx (after_save u im s) eq_refl).
      apply (IH (S i) (painted w h len i (next_tmp s) c) c' _ s' front ulast
                Hlen'); auto.
      unfold painted. rewrite Hmid. cbn. rewrite <- app_assoc. cbn.
      now constructor.
Qed.

(** C5, amended: a page break is issued right after a painted image
    exactly when that image is not at the last position of the input.  So
    when the last URL is painted the call log ends with its image, no
    break after it, every earlier image being followed by its break; and
    when the last URL is not painted, every painted image, the last one
    painted included, is followed by a break.  The canvas is asked to draw
    each image fetched and saved, and the break after the last of them
    adds no page: every page of the document shows one image. *)
Theorem pdf_page_breaks (u : URL) (rest : list URL) (title : string)
        (s : state) (im : image) :
  net (List.length (fetched s)) u = Some im ->
  exists c s',
    create_pdf_from_images net (u :: rest) title tt s
    = (Ok (mkBuffer (next_buf s) (PdfContent c)), (tt, s'))
    /\ (forall front ulast,
          u :: rest = front ++ [ulast] ->
          match net (S (List.length (fetched s)) + List.length front) ulast with
          | Some imlast =>
              if can_save imlast
              then exists l p,
                  calls c = l ++ [CallDrawImage p] /\ broken_log l
              else broken_log (calls c)
          | None => broken_log (calls c)
          end)
    /\ draw_count (calls c)
       = encodable_count net (S (List.length (fetched s))) (u :: rest)
    /\ List.length (pages c) = draw_count (calls c)
    /\ Forall (full_page (im_width im) (im_height im)) (pages c).
Proof.
  intros Hnet. rewrite (create_pdf_eq _ _ _ _ _ _ Hnet).
  set (s1 := after_fetch u (set_next_buf (S (next_buf s)) s)).
  assert (L : List.length (fetched s1) = S (List.length (fetched s)))
    by (cbn; rewrite length_app; cbn; lia).
  destruct (pdf_loop_pages (im_width im) (im_height im)
              (S (List.length rest)) (u :: rest) 0%nat (Canvas (size im)) s1
              eq_refl eq_refl eq_refl)
    as (c' & s' & new & E & Hp & Hn & Hf).
  exists (save c'), s'. rewrite E. split; [reflexivity|].
  rewrite save_calls.
  pose proof (pdf_loop_draws _ _ _ _ _ _ _ _ _ E) as Hd.
  cbn [calls Canvas draw_count Nat.add] in Hd. rewrite L in Hd, Hn.
  split; [|split; [exact Hd|split]].
  - intros front ulast Hsplit.
    pose proof (pdf_loop_last_break (im_width im) (im_height im)
                  (S (List.length rest)) (u :: rest) 0%nat (Canvas (size im))
                  c' s1 s' front ulast eq_refl broken_nil E Hsplit) as H.
    now rewrite L in H.
  - rewrite Hd, Hp. change (pages (Canvas (size im))) with (@nil page).
    now rewrite app_nil_l.
  - rewrite Hp. change (pages (Canvas (size im))) with (@nil page).
    now rewrite app_nil_l.
Qed.

End PdfMore.

(** C5 on samples: with both images painted the log ends with the
    second image, no break after it, the first image having its break;
    the document has the two pages. *)
Lemma pdf_page_breaks_witness :
  exists c s' l p,
    create_pdf_from_images (a_and_b MRGB) [a_png; b_png] "deck" tt fresh
    = (Ok (mkBuffer 0 (PdfContent c)), (tt, s'))
    /\ calls c = l ++ [CallDrawImage p] /\ broken_log l
    /\ draw_count (calls c) = 2%nat
    /\ List.length (pages c) = 2%nat.
Proof.
  destruct (pdf_page_breaks (a_and_b MRGB) a_png [b_png] "deck" fresh
              (sample MRGB) eq_refl) as (c & s' & E & Hlast & Hd & Hp & _).
  destruct (Hlast [a_png] b_png eq_refl) as (l & p & Hc & Hl).
  exists c, s', l, p. split; [exact E|]. split; [exact Hc|].
  split; [exact Hl|]. split; [exact Hd|]. rewrite Hp. exact Hd.
Defined.


(** ** What [convert] leaves behind *)

Section ConvertMore.

Variable net : nat -> URL -> option image.
Variable default_layouts : list nat.
Variable sldLayouts_clear : list nat -> option (list nat).

(** A request refused with status 400 changes nothing: no download, no
    buffer, no temporary file, no entry in the cleanup queue -- whichever
    renderers [convert] is given. *)
Theorem convert_400_leaves_state
        (pdf ppt zip : renderer) (data : option body) (s s' : state)
        (r : response) :
  convert_with pdf ppt zip data tt s = (Ok r, (tt, s')) ->
  status_of r = 400 ->
  s' = s.
Proof.
  unfold convert_with. unfold_monad.
  destruct data as [d|]; [|intros E; now inversion E].
  destruct (dict_is_empty d); [intros E; now inversion E|].
  destruct (b_format d) as [[| |z|f]|]; cbn [py_lower]; unfold_monad;
    try (intros E; inversion E; subst; cbn; discriminate).
  - destruct (b_images d) as [[|u rest]|];
      try (intros E; now inversion E).
    destruct (PyStr.in_list (PyStr.lower f) ["pdf"; "ppt"; "zip"]);
      cbn [negb]; [|intros E; now inversion E].
    destruct (PyStr.lower f =? "pdf")%string.
    { destruct (pdf _ _ tt s) as [[b|e] [o s1]]; unfold schedule_cleanup;
        unfold_monad; intros E; inversion E; subst; cbn; discriminate. }
    destruct (PyStr.lower f =? "ppt")%string.
    { destruct (ppt _ _ tt s) as [[b|e] [o s1]]; unfold schedule_cleanup;
        unfold_monad; intros E; inversion E; subst; cbn; discriminate. }
    destruct (PyStr.lower f =? "zip")%string.
    { destruct (zip _ _ tt s) as [[b|e] [o s1]]; unfold schedule_cleanup;
        unfold_monad; intros E; inversion E; subst; cbn; discriminate. }
    unfold_monad. intros E; inversion E; subst; cbn; discriminate.
  - destruct (b_images d) as [[|u rest]|];
      try (intros E; now inversion E).
    change (PyStr.in_list (PyStr.lower "pdf") ["pdf"; "ppt"; "zip"]) with true.
    change ((PyStr.lower "pdf" =? "pdf")%string) with true. cbn [negb].
    destruct (pdf _ _ tt s) as [[b|e] [o s1]]; unfold schedule_cleanup;
      unfold_monad; intros E; inversion E; subst; cbn; discriminate.
Qed.

(** The file of every successful response is the last entry of the cleanup
    queue, registered as a buffer at the current time -- whichever
    renderers [convert] is given. *)
Theorem convert_registers_sent_file
        (pdf ppt zip : renderer) (data : option body) (s s' : state)
        (b : buffer) (m n : string) :
  convert_with pdf ppt zip data tt s = (Ok (SendFile b m n), (tt, s')) ->
  exists q,
    cleanup_queue s' = q ++ [mkItem RBuffer None (Some (buf_id b)) (now s')].
Proof.
  unfold convert_with. unfold_monad.
  destruct data as [d|]; [|intros E; discriminate E].
  destruct (dict_is_empty d); [intros E; discriminate E|].
  destruct (b_format d) as [[| |z|f]|]; cbn [py_lower]; unfold_monad;
    try (intros E; discriminate E).
  - destruct (b_images d) as [[|u rest]|]; try (intros E; discriminate E).
    destruct (PyStr.in_list (PyStr.lower f) ["pdf"; "ppt"; "zip"]);
      cbn [negb]; [|intros E; discriminate E].
    destruct (PyStr.lower f =? "pdf")%string.
    { destruct (pdf _ _ tt s) as [[b0|e] [o s1]]; unfold schedule_cleanup;
        unfold_monad; intros E; inversion E; subst; cbn; now eexists. }
    destruct (PyStr.lower f =? "ppt")%string.
    { destruct (ppt _ _ tt s) as [[b0|e] [o s1]]; unfold schedule_cleanup;
        unfold_monad; intros E; inversion E; subst; cbn; now eexists. }
    destruct (PyStr.lower f =? "zip")%string.
    { destruct (zip _ _ tt s) as [[b0|e] [o s1]]; unfold schedule_cleanup;
        unfold_monad; intros E; inversion E; subst; cbn; now eexists. }
    unfold_monad. intros E; discriminate E.
  - destruct (b_images d) as [[|u rest]|]; try (intros E; discriminate E).
    change (PyStr.in_list (PyStr.lower "pdf") ["pdf"; "ppt"; "zip"]) with true.
    change ((PyStr.lower "pdf" =? "pdf")%string) with true. cbn [negb].
    destruct (pdf _ _ tt s) as [[b0|e] [o s1]]; unfold schedule_cleanup;
      unfold_monad; intros E; inversion E; subst; cbn; now eexists.
Qed.

Lemma appends_only_refl (s : state) : appends_only s s.
Proof. exists []. rewrite app_nil_r. auto. Qed.

Lemma appends_only_trans (s1 s2 s3 : state) :
  appends_only s1 s2 -> appends_only s2 s3 -> appends_only s1 s3.
Proof.
  intros (q1 & Hq1 & Hf1 & Hn1 & Hc1) (q2 & Hq2 & Hf2 & Hn2 & Hc2).
  exists (q1 ++ q2). rewrite Hq2, Hq1, <- app_assoc.
  repeat split; try congruence.
  apply Forall_app. split; [exact Hf1|].
  rewrite Hn1 in Hf2. exact Hf2.
Qed.

(** The loop of the deck renderer never raises; it fetches every URL once
    and only appends to the cleanup queue. *)
Lemma ppt_loop_state (images : list URL) :
  forall (i : nat) (prs : presentation) (s : state),
  exists prs' s',
    ppt_loop net i images prs s = (Ok tt, (prs', s'))
    /\ appends_only s s'
    /\ fetched s' = fetched s ++ images.
Proof.
  induction images as [|u rest IH]; intros i prs s.
  - exists prs, s. cbn. unfold_monad. rewrite app_nil_r.
    split; [reflexivity|]. split; [apply appends_only_refl|reflexivity].
  - cbn [ppt_loop]. unfold bind. rewrite ppt_step_eq.
    assert (Hgo : forall prs1 s1,
               appends_only s s1 -> fetched s1 = fetched s ++ [u] ->
               exists prs' s',
                 ppt_loop net (S i) rest prs1 s1 = (Ok tt, (prs', s'))
                 /\ appends_only s s'
                 /\ fetched s' = fetched s ++ u :: rest).
    { intros prs1 s1 Ha Hf.
      destruct (IH (S i) prs1 s1) as (prs' & s' & E & Ha' & Hf').
      exists prs', s'. split; [exact E|]. split.
      - now apply (appends_only_trans s s1 s').
      - rewrite Hf', Hf, <- app_assoc. reflexivity. }
    assert (Hplain : forall s1, cleanup_queue s1 = cleanup_queue s ->
                       now s1 = now s -> closed s1 = closed s ->
                       appends_only s s1).
    { intros s1 Hq Hn Hc. exists []. rewrite app_nil_r. auto. }
    destruct (net (List.length (fetched s)) u) as [im|].
    + destruct (slide_layouts prs) as [|l0 ls].
      * destruct (Hgo prs (after_fetch u s)) as (prs' & s' & E & H);
          [now apply Hplain|reflexivity|].
        exists prs', s'. now rewrite E.
      * destruct (can_save im).
        -- destruct (Hgo (add_picture (next_tmp s) 0 0 Inches_10 Inches_7_5
                            (add_slide l0 prs)) (after_save u im s))
             as (prs' & s' & E & H).
           { exists [mkItem RFile (Some (next_tmp s)) None (now s)].
             cbn. repeat split; auto. }
           { reflexivity. }
           exists prs', s'. now rewrite E.
        -- destruct (Hgo (add_slide l0 prs) (after_tempfile u s))
             as (prs' & s' & E & H); [now apply Hplain|reflexivity|].
           exists prs', s'. now rewrite E.
    + destruct (Hgo prs (after_fetch u s)) as (prs' & s' & E & H);
        [now apply Hplain|reflexivity|].
      exists prs', s'. now rewrite E.
Qed.

Lemma create_pdf_outcome (images : list URL) (title : string) (s : state) :
  exists r s',
    create_pdf_from_images net images title tt s = (r, (tt, s'))
    /\ appends_only s s'
    /\ forall b, r = Ok b -> exists c, buf_content b = PdfContent c.
Proof.
  destruct images as [|u rest].
  - rewrite (create_pdf_raise_eq net [] title s I).
    eexists. eexists. split; [reflexivity|]. split; [|discriminate].
    exists []. cbn. rewrite app_nil_r. auto.
  - destruct (net (List.length (fetched s)) u) as [im|] eqn:Hnet.
    + rewrite (create_pdf_eq _ _ _ _ _ _ Hnet).
      set (s1 := after_fetch u (set_next_buf (S (next_buf s)) s)).
      destruct (pdf_loop_state net (im_width im) (im_height im)
                  (S (List.length rest)) (u :: rest) 0%nat (Canvas (size im)) s1)
        as (c' & s' & q' & E & Hq & _ & Hf & _ & _ & Hnow & Hcl).
      rewrite E. eexists. exists s'. split; [reflexivity|]. split.
      * exists q'. cbn in Hq, Hf, Hnow, Hcl. repeat split; auto.
        revert Hf. apply Forall_impl. now intros it (_ & _ & H & _).
      * intros b Hb. inversion Hb. now eexists.
    + rewrite (create_pdf_raise_eq net (u :: rest) title s Hnet).
      eexists. eexists. split; [reflexivity|]. split; [|discriminate].
      exists []. cbn. rewrite app_nil_r. auto.
Qed.

Lemma create_ppt_outcome (images : list URL) (title : string) (s : state) :
  exists r s',
    create_ppt_from_images net default_layouts sldLayouts_clear images title
                           tt s = (r, (tt, s'))
    /\ appends_only s s'
    /\ forall b, r = Ok b -> exists prs, buf_content b = PptContent prs.
Proof.
  rewrite create_ppt_eq. destruct (sldLayouts_clear default_layouts) as [ls|].
  - destruct (ppt_loop_state images 0%nat (mkPresentation ls []) s)
      as (prs' & s' & E & (q' & Hq & Hf & Hn & Hc) & _).
    rewrite E. eexists. eexists. split; [reflexivity|]. split.
    + exists q'. cbn. auto.
    + intros b Hb. inversion Hb. now eexists.
  - eexists. exists s. split; [reflexivity|].
    split; [apply appends_only_refl|discriminate].
Qed.

Lemma create_zip_outcome (images : list URL) (title : string) (s : state) :
  exists r s',
    create_zip_from_images net images title tt s = (r, (tt, s'))
    /\ appends_only s s'
    /\ forall b, r = Ok b -> exists z, buf_content b = ZipContent z.
Proof.
  rewrite create_zip_eq. eexists. eexists. split; [reflexivity|]. split.
  - exists []. cbn. rewrite app_nil_r. auto.
  - intros b Hb. inversion Hb. now eexists.
Qed.


Ltac renderer_outcome r s1 E Ha Hk :=
  match goal with
  | |- context [create_pdf_from_images net ?im ?t tt ?s] =>
      destruct (create_pdf_outcome im t s) as (r & s1 & E & Ha & Hk)
  | |- context [create_ppt_from_images net default_layouts sldLayouts_clear
                                       ?im ?t tt ?s] =>
      destruct (create_ppt_outcome im t s) as (r & s1 & E & Ha & Hk)
  | |- context [create_zip_from_images net ?im ?t tt ?s] =>
      destruct (create_zip_outcome im t s) as (r & s1 & E & Ha & Hk)
  end.


(** A file is sent only for one of the three formats, and then its kind,
    its media type and its name go together: a PDF document as
    [application/pdf] under [title.pdf], a presentation under [title.pptx],
    an archive as [application/zip] under [title.zip]; the format defaults
    to pdf and the title to "Presentation". *)
Theorem convert_dispatch (d : body) (s s' : state) (b : buffer) (m n : string) :
  handle net default_layouts sldLayouts_clear (Some d) s
  = (SendFile b m n, s') ->
  (requested_format d = Some "pdf" /\ m = "application/pdf"
   /\ n = (requested_title d ++ ".pdf")%string
   /\ exists c, buf_content b = PdfContent c)
  \/ (requested_format d = Some "ppt"
      /\ m = "application/vnd.openxmlformats-officedocument.presentationml.presentation"
      /\ n = (requested_title d ++ ".pptx")%string
      /\ exists prs, buf_content b = PptContent prs)
  \/ (requested_format d = Some "zip" /\ m = "application/zip"
      /\ n = (requested_title d ++ ".zip")%string
      /\ exists z, buf_content b = ZipContent z).
Proof.
  unfold handle, convert, convert_with, requested_format, requested_title.
  unfold_monad.
  destruct (dict_is_empty d); [intros E; discriminate E|].
  destruct (b_format d) as [[| |z|f]|]; cbn [py_lower]; unfold_monad;
    try (intros E; discriminate E).
  - destruct (b_images d) as [[|u rest]|]; try (intros E; discriminate E).
    destruct (PyStr.in_list (PyStr.lower f) ["pdf"; "ppt"; "zip"]);
      cbn [negb]; [|intros E; discriminate E].
    destruct (PyStr.lower f =? "pdf")%string eqn:F1.
    { apply String.eqb_eq in F1. renderer_outcome r s1 E Ha Hk. rewrite E.
      unfold schedule_cleanup. unfold_monad.
      destruct r as [b0|e]; intros H; inversion H; subst.
      left. rewrite F1. auto. }
    destruct (PyStr.lower f =? "ppt")%string eqn:F2.
    { apply String.eqb_eq in F2. renderer_outcome r s1 E Ha Hk. rewrite E.
      unfold schedule_cleanup. unfold_monad.
      destruct r as [b0|e]; intros H; inversion H; subst.
      right; left. rewrite F2. auto. }
    destruct (PyStr.lower f =? "zip")%string eqn:F3.
    { apply String.eqb_eq in F3. renderer_outcome r s1 E Ha Hk. rewrite E.
      unfold schedule_cleanup. unfold_monad.
      destruct r as [b0|e]; intros H; inversion H; subst.
      right; right. rewrite F3. auto. }
    unfold_monad. intros E; discriminate E.
  - destruct (b_images d) as [[|u rest]|]; try (intros E; discriminate E).
    change (PyStr.in_list (PyStr.lower "pdf") ["pdf"; "ppt"; "zip"]) with true.
    change ((PyStr.lower "pdf" =? "pdf")%string) with true. cbn [negb].
    renderer_outcome r s1 E Ha Hk. rewrite E.
    unfold schedule_cleanup. unfold_monad.
    destruct r as [b0|e]; intros H; inversion H; subst.
    left. auto.
Qed.

End ConvertMore.

(** ** What a pass of the cleanup thread keeps *)

Section SweeperMore.

Variable hz : Z.
Variable unlink_fails : nat -> bool.

Lemma sweep_keeps_fresh_entries_aux (s : state) :
  cleanup_queue (sweep hz unlink_fails s)
  = filter (fun it => now s - i_created it <=? 300 * hz) (cleanup_queue s).
Proof.
  destruct (sweep_spec hz unlink_fails s) as (-> & _).
  apply filter_ext. intros it. unfold stale.
  rewrite Z.gtb_ltb, Z.leb_antisym. reflexivity.
Qed.

(** A pass keeps exactly the entries that are at most 300 seconds old --
    an entry of exactly 300 seconds stays -- and keeps them in their
    order. *)
Theorem sweep_keeps_fresh_entries (s : state) :
  (forall it,
      In it (cleanup_queue (sweep hz unlink_fails s))
      <-> In it (cleanup_queue s) /\ now s - i_created it <= 300 * hz)
  /\ cleanup_queue (sweep hz unlink_fails s)
     = filter (fun it => now s - i_created it <=? 300 * hz) (cleanup_queue s).
Proof.
  rewrite sweep_keeps_fresh_entries_aux. split; [|reflexivity].
  intros it. rewrite filter_In, Z.leb_le. reflexivity.
Qed.

Lemma scan_no_stale (t : Z) (queue : list item) :
  (forall it, In it queue -> stale hz t it = false) ->
  forall acc s,
    scan hz unlink_fails t queue acc tt s = (Ok acc, (tt, s)).
Proof.
  induction queue as [|x r IH]; intros Hfresh acc s; [reflexivity|].
  cbn [scan]. rewrite (Hfresh x (or_introl eq_refl)).
  apply IH. intros it Hin. apply Hfresh. now right.
Qed.

(** A second pass at the same time changes nothing. *)
Theorem sweep_idempotent (s : state) :
  sweep hz unlink_fails (sweep hz unlink_fails s) = sweep hz unlink_fails s.
Proof.
  destruct (sweep_spec hz unlink_fails s) as (Hq & Hn & _).
  set (s1 := sweep hz unlink_fails s) in *.
  unfold sweep at 1. rewrite scan_no_stale.
  - cbn. now destruct s1.
  - intros it Hin. rewrite Hq in Hin. apply filter_In in Hin as [_ Hin].
    rewrite Hn. now apply negb_true_iff in Hin.
Qed.

Lemma path_exists_unlink_other (p q : nat) (s : state) :
  p <> q -> path_exists p (unlink q s) = path_exists p s.
Proof.
  intros Hne. unfold path_exists, unlink. cbn.
  induction (disk s) as [|e d IH]; cbn; [reflexivity|].
  destruct (Nat.eqb (fst e) q) eqn:Eq; cbn.
  - apply Nat.eqb_eq in Eq.
    assert (Nat.eqb (fst e) p = false) as -> by (apply Nat.eqb_neq; congruence).
    exact IH.
  - now rewrite IH.
Qed.

(** Releasing one entry affects its own file or buffer only. *)
Lemma release_within (it : item) (s : state) :
  exists s',
    try_except (release unlink_fails it) (fun _ => ret tt) tt s
    = (Ok tt, (tt, s'))
    /\ (forall p, path_exists p s = true ->
                  (i_type it = RFile -> i_path it <> Some p) ->
                  path_exists p s' = true)
    /\ (forall b, In b (closed s') ->
                  In b (closed s)
                  \/ (i_type it = RBuffer /\ i_buffer it = Some b)).
Proof.
  unfold release. unfold_monad.
  destruct (i_type it) eqn:Ety.
  - destruct (i_path it) as [q|] eqn:Epath.
    + destruct (path_exists q s) eqn:Ex.
      * destruct (unlink_fails q).
        -- exists s. repeat split; auto.
        -- exists (unlink q s). split; [reflexivity|]. split.
           ++ intros p Hp Hne. rewrite path_exists_unlink_other; [exact Hp|].
              intros ->. now apply Hne.
           ++ intros b Hb. now left.
      * exists s. repeat split; auto.
    + exists s. repeat split; auto.
  - destruct (i_buffer it) as [b0|] eqn:Eb.
    + exists (set_closed (closed s ++ [b0]) s). split; [reflexivity|]. split.
      * intros p Hp _. exact Hp.
      * intros b Hb. cbn in Hb. apply in_app_iff in Hb as [Hb|[<-|[]]]; auto.
    + exists s. repeat split; auto.
  - exists s. repeat split; auto.
Qed.

Lemma scan_within (t : Z) (queue : list item) :
  forall (acc : list item) (s : state),
  exists r s',
    scan hz unlink_fails t queue acc tt s = (Ok r, (tt, s'))
    /\ releases_within hz t queue s s'.
Proof.
  induction queue as [|x rest IH]; intros acc s.
  - exists acc, s. split; [reflexivity|]. split; [auto|].
    intros b Hb. now left.
  - cbn [scan]. destruct (stale hz t x) eqn:Sx.
    + destruct (release_within x s) as (s1 & E1 & P1 & B1).
      destruct (IH (acc ++ [x]) s1) as (r & s' & E & P & B).
      exists r, s'. unfold bind. rewrite E1, E. split; [reflexivity|]. split.
      * intros p Hp Hnone. apply P.
        -- apply P1; [exact Hp|]. intros Hty. apply Hnone; auto. now left.
        -- intros it Hin. apply Hnone. now right.
      * intros b Hb. destruct (B b Hb) as [Hb1 | (it & Hin & Hst & Hty & Hbuf)].
        -- destruct (B1 b Hb1) as [Hb0 | [Hty Hbuf]]; [now left|].
           right. exists x. repeat split; auto. now left.
        -- right. exists it. repeat split; auto. now right.
    + destruct (IH acc s) as (r & s' & E & P & B).
      exists r, s'. rewrite E. split; [reflexivity|]. split.
      * intros p Hp Hnone. apply P; [exact Hp|].
        intros it Hin. apply Hnone. now right.
      * intros b Hb. destruct (B b Hb) as [Hb0 | (it & Hin & H)];
          [now left|].
        right. exists it. split; [now right|exact H].
Qed.

(** A pass releases nothing but what the stale entries of the queue name:
    the file of a fresh entry, a file no entry names and a buffer no stale
    entry names are left alone. *)
Theorem sweep_releases_only_stale (s : state) :
  releases_within hz (now s) (cleanup_queue s) s (sweep hz unlink_fails s).
Proof.
  unfold sweep.
  destruct (scan_within (now s) (cleanup_queue s) [] s) as (r & s' & E & P & B).
  rewrite E. split.
  - intros p Hp Hnone. cbn. unfold path_exists in *. cbn. now apply P.
  - intros b Hb. cbn in Hb. now apply B.
Qed.

Lemma sweep_keeps_path (p : nat) (s : state) :
  path_exists p s = true ->
  (forall it, In it (cleanup_queue s) -> i_path it <> Some p) ->
  path_exists p (sweep hz unlink_fails s) = true.
Proof.
  intros Hp Hnone. unfold sweep.
  destruct (scan_within (now s) (cleanup_queue s) [] s)
    as (r & s' & E & P & _).
  rewrite E. unfold path_exists in *. cbn. apply P; [exact Hp|].
  intros it Hin _ _. now apply Hnone.
Qed.

Lemma filter_filter_weaker (f g : item -> bool) (l : list item) :
  (forall x, f x = true -> g x = true) ->
  filter f (filter g l) = filter f l.
Proof.
  intros Himp. induction l as [|x l IH]; cbn; [reflexivity|].
  destruct (g x) eqn:G; cbn.
  - now rewrite IH.
  - destruct (f x) eqn:F; [|exact IH].
    apply Himp in F. congruence.
Qed.

(** The thread left alone, its turns lasting sixty seconds each: after
    its first [k + 1] passes the queue holds, in their order, exactly the
    entries that were at most 300 seconds old at the last of these
    passes. *)
Theorem idle_thread_queue (k : nat) (s : state) :
  0 <= hz ->
  cleanup_queue
    (cleanup_resources hz unlink_fails (repeat [Elapse (60 * hz)] (S k)) s)
  = filter (fun it => wake_time hz (now s) k - i_created it <=? 300 * hz)
           (cleanup_queue s).
Proof.
  intros Hhz. revert s. induction k as [|k IH]; intros s.
  - cbn [repeat cleanup_resources]. unfold run_turn. cbn [fold_left act].
    cbn [cleanup_queue set_now].
    rewrite sweep_keeps_fresh_entries_aux. apply filter_ext. intros it.
    unfold wake_time. now replace (now s + Z.of_nat 0 * (60 * hz)) with (now s)
      by lia.
  - change (repeat [Elapse (60 * hz)] (S (S k)))
      with ([Elapse (60 * hz)] :: repeat [Elapse (60 * hz)] (S k)).
    cbn [cleanup_resources]. rewrite IH.
    unfold run_turn. cbn [fold_left act cleanup_queue now set_now].
    destruct (sweep_spec hz unlink_fails s) as (_ & -> & _).
    rewrite sweep_keeps_fresh_entries_aux.
    assert (Hw : forall it,
               (wake_time hz (now s + 60 * hz) k - i_created it <=? 300 * hz)
               = (wake_time hz (now s) (S k) - i_created it <=? 300 * hz)).
    { intros it. unfold wake_time. f_equal. lia. }
    rewrite (filter_ext _ _ Hw). apply filter_filter_weaker.
    intros it Hit. apply Z.leb_le in Hit. apply Z.leb_le.
    unfold wake_time in Hit. lia.
Qed.

(** A file on disk that no entry of the queue names, and that no request
    registers later, is never deleted by the thread, however long it runs
    and whatever the timing of its turns. *)
Theorem unregistered_file_survives (p : nat) (turns : list (list activity)) :
  forall s,
    path_exists p s = true ->
    (forall it, In it (cleanup_queue s) -> i_path it <> Some p) ->
    (forall tn t path buf,
        In tn turns -> In (Register t path buf) tn -> path <> Some p) ->
    path_exists p (cleanup_resources hz unlink_fails turns s) = true.
Proof.
  induction turns as [|tn turns IH]; intros s Hp Hnone Hreg; [exact Hp|].
  cbn [cleanup_resources]. unfold run_turn.
  assert (Hturn : forall acts s1,
             path_exists p s1 = true ->
             (forall it, In it (cleanup_queue s1) -> i_path it <> Some p) ->
             (forall t path buf, In (Register t path buf) acts ->
                                 path <> Some p) ->
             path_exists p (fold_left (fun s0 a => act a s0) acts s1) = true
             /\ (forall it,
                   In it (cleanup_queue
                            (fold_left (fun s0 a => act a s0) acts s1)) ->
                   i_path it <> Some p)).
  { induction acts as [|a acts IHa]; intros s1 Hp1 Hn1 Hr1; [now split|].
    cbn [fold_left]. apply IHa.
    - now destruct a.
    - intros it Hin. destruct a as [dt|t path buf]; cbn in Hin;
        [now apply Hn1|].
      apply in_app_iff in Hin as [Hin|[<-|[]]]; [now apply Hn1|].
      cbn. apply (Hr1 t path buf). now left.
    - intros t path buf Hin. apply (Hr1 t path buf). now right. }
  destruct (Hturn tn (sweep hz unlink_fails s)) as (Hp' & Hn').
  - now apply sweep_keeps_path.
  - intros it Hin. rewrite sweep_keeps_fresh_entries_aux in Hin.
    apply filter_In in Hin as [Hin _]. now apply Hnone.
  - intros t path buf Hin. apply (Hreg tn t path buf); [now left|exact Hin].
  - apply IH; [exact Hp'|exact Hn'|].
    intros tn' t path buf Hin. apply (Hreg tn' t path buf). now right.
Qed.

End SweeperMore.

(** ** The further properties on samples *)

Lemma convert_validation_string_format_witness :
  exists msg,
    convert_with (create_pdf_from_images offline)
      (create_ppt_from_images offline template_layouts (fun _ => Some []))
      (create_zip_from_images offline)
      (Some (mkBody (Some [a_png]) None (Some (JStr "GIF")) false)) tt fresh
    = (Ok (Jsonify (Text msg) 400), (tt, fresh)).
Proof.
  apply (convert_validation_string_format _ _ _
           (mkBody (Some [a_png]) None (Some (JStr "GIF")) false) "GIF" fresh).
  - reflexivity.
  - left. reflexivity.
  - right. right. reflexivity.
Defined.

Lemma convert_400_leaves_state_witness :
  snd (handle offline template_layouts (fun _ => Some [])
         (Some (mkBody (Some []) None (Some (JStr "zip")) false)) fresh)
  = fresh.
Proof.
  apply (convert_400_leaves_state
           (create_pdf_from_images offline)
           (create_ppt_from_images offline template_layouts (fun _ => Some []))
           (create_zip_from_images offline)
           (Some (mkBody (Some []) None (Some (JStr "zip")) false)) fresh
           _ (Jsonify (Text "No images provided") 400)).
  - reflexivity.
  - reflexivity.
Defined.

Lemma convert_registers_sent_file_witness :
  exists q,
    cleanup_queue
      (snd (handle (only_a MRGB) template_layouts (fun _ => Some [])
              (Some (mkBody (Some [a_png]) None None false)) fresh))
    = q ++ [mkItem RBuffer None (Some 0%nat) 0].
Proof.
  destruct (convert_registers_sent_file
              (create_pdf_from_images (only_a MRGB))
              (create_ppt_from_images (only_a MRGB) template_layouts
                                      (fun _ => Some []))
              (create_zip_from_images (only_a MRGB))
              (Some (mkBody (Some [a_png]) None None false)) fresh
              (snd (handle (only_a MRGB) template_layouts (fun _ => Some [])
                      (Some (mkBody (Some [a_png]) None None false)) fresh))
              (mkBuffer 0 (PdfContent
                 (mkCanvas (640, 480) []
                    [mkPage (640, 480) [(0%nat, 0, 0, 640, 480)]]
                    [CallDrawImage 0])))
              "application/pdf" "Presentation.pdf") as (q & Hq).
  - vm_compute. reflexivity.
  - exists q. exact Hq.
Defined.

Lemma convert_dispatch_witness :
  exists z,
    buf_content
      (mkBuffer 0 (ZipContent [mkEntry "slide_001.jpg" 95 (sample MRGB)]))
    = ZipContent z.
Proof.
  destruct (convert_dispatch (only_a MRGB) template_layouts (fun _ => Some [])
              (mkBody (Some [a_png]) (Some "deck") (Some (JStr "ZIP")) false)
              fresh
              (snd (handle (only_a MRGB) template_layouts (fun _ => Some [])
                      (Some (mkBody (Some [a_png]) (Some "deck")
                               (Some (JStr "ZIP")) false)) fresh))
              (mkBuffer 0 (ZipContent
                 [mkEntry "slide_001.jpg" 95 (sample MRGB)]))
              "application/zip" "deck.zip")
    as [(F & _) | [(F & _) | (_ & _ & _ & H)]].
  - vm_compute. reflexivity.
  - discriminate F.
  - discriminate F.
  - exact H.
Defined.

Lemma pdf_document_pages_witness :
  exists c s',
    create_pdf_from_images (only_a MRGB) [a_png; b_png] "deck" tt fresh
    = (Ok (mkBuffer 0 (PdfContent c)), (tt, s'))
    /\ List.length (pages c) = 1%nat
    /\ Forall (full_page 640 480) (pages c).
Proof.
  exact (pdf_document_pages (only_a MRGB) a_png [b_png] "deck" fresh
           (sample MRGB) eq_refl).
Defined.

(** An RGBA image is fetched twice and leaves one temporary file that no
    queue entry names. *)
Lemma pdf_temp_files_witness :
  exists b s' q',
    create_pdf_from_images (only_a MRGBA) [a_png] "deck" tt fresh
    = (Ok b, (tt, s'))
    /\ fetched s' = [a_png; a_png]
    /\ cleanup_queue s' = q' /\ List.length q' = 0%nat
    /\ List.length (disk s') = 1%nat.
Proof.
  destruct (pdf_temp_files (only_a MRGBA) a_png [] "deck" fresh
              (sample MRGBA) eq_refl)
    as (b & s' & q' & E & Hf & Hq & Hn & _ & Hd & _).
  exists b, s', q'. repeat split; assumption.
Defined.

Lemma pdf_gives_up_early_witness :
  exists e s',
    create_pdf_from_images (only_a MRGB) [b_png; a_png] "deck" tt fresh
    = (Raise e, (tt, s'))
    /\ e = FetchError b_png
    /\ fetched s' = [b_png]
    /\ disk s' = [] /\ next_tmp s' = 0%nat
    /\ cleanup_queue s' = [] /\ closed s' = [].
Proof.
  exact (pdf_gives_up_early (only_a MRGB) [b_png; a_png] "deck" fresh eq_refl).
Defined.

Lemma idle_thread_queue_witness :
  cleanup_queue
    (cleanup_resources 1 (fun _ => false) (repeat [Elapse (60 * 1)] 6)
       (mkState [] [mkItem RBuffer None (Some 0%nat) 0;
                    mkItem RBuffer None (Some 1%nat) 100] 0 0 [] 2 []))
  = filter (fun it => wake_time 1 0 5 - i_created it <=? 300 * 1)
           [mkItem RBuffer None (Some 0%nat) 0;
            mkItem RBuffer None (Some 1%nat) 100].
Proof.
  apply (idle_thread_queue 1 (fun _ => false) 5
           (mkState [] [mkItem RBuffer None (Some 0%nat) 0;
                        mkItem RBuffer None (Some 1%nat) 100] 0 0 [] 2 [])).
  lia.
Defined.

Lemma unregistered_file_survives_witness :
  path_exists 0
    (cleanup_resources 1 (fun _ => false)
       [[Elapse 61; Register RFile (Some 1%nat) None; Elapse 400]; [Elapse 61]]
       (mkState [] [] 0 1 [(0%nat, None)] 0 []))
  = true.
Proof.
  apply (unregistered_file_survives 1 (fun _ => false) 0
           [[Elapse 61; Register RFile (Some 1%nat) None; Elapse 400];
            [Elapse 61]]).
  - reflexivity.
  - intros it [].
  - intros tn t path buf [<- | [<- | []]] Hin.
    + destruct Hin as [Hin | [Hin | [Hin | []]]]; inversion Hin. discriminate.
    + destruct Hin as [Hin | []]; inversion Hin.
Defined.
